(** * usb_writer.py: a shallow embedding and its checked properties

    The script drives external tools (sgdisk, parted, mkfs.*, dd, diskpart)
    through [subprocess] and talks to the operator through [print]/[input].
    It is modelled here as a function of the command-line arguments and of a
    [World] (everything the script reads from its environment) that returns
    the ordered list of observable events together with the way the
    interpreter leaves [main]: a normal return or a raised exception. *)

From Stdlib Require Import String Ascii List ZArith Bool Lia.
Import ListNotations.
Local Open Scope list_scope.
Local Open Scope string_scope.

(** ** Python values, exceptions, events *)

(** The argument of [sys.exit] / [SystemExit]: an integer status, or a
    message (printed on stderr by the interpreter, status 1). *)
Inductive exit_arg : Type :=
| ExitCode (n : Z)
| ExitMsg (s : string).

(** The exceptions the script can meet.  [SystemExit] derives from
    [BaseException]; all the others derive from [Exception]. *)
Inductive exn : Type :=
| SystemExit (a : exit_arg)
| CalledProcessError (returncode : Z) (cmd : list string)
| OSError (msg : string)
| AttributeError (msg : string)
| UnicodeDecodeError
| EOFError.

Inductive pyval : Type :=
| PNone
| PInt (n : Z)
| PStr (s : string)
| PExc (e : exn).

Inductive event : Type :=
| EPrint (args : list pyval)          (* print(args...) *)
| EInput (prompt : string)            (* input(prompt) *)
| ESpawn (cmd : list string)          (* subprocess.{call,check_call,check_output}(cmd) *)
| EWrite (path content : string).     (* a file opened for writing, then written *)

(** What becomes of a child process: it runs and exits with a status and
    some captured standard output, or it cannot be started at all (the
    executable is missing), in which case [subprocess] raises [OSError]. *)
Inductive proc : Type :=
| Exited (status : Z) (stdout : string)
| NotStarted (msg : string).

(** What [Path(p).exists()] finds: the path is there, it is not (the
    [stat] call fails with an error that [exists] takes for an answer: no
    such file, not a directory), or [stat] fails with another error (name
    too long, permission denied), which [exists] lets through as
    [OSError]. *)
Inductive stat_result : Type :=
| Present
| Absent
| StatFails (msg : string).

(** Everything [usb_writer.py] reads from outside. *)
Record World : Type := {
  platform_system : string;            (* platform.system() *)
  geteuid : Z;                         (* os.geteuid() *)
  IsUserAnAdmin : option bool;         (* ctypes.windll.shell32.IsUserAnAdmin(); None: it raises *)
  which : string -> bool;              (* shutil.which(name) is not None *)
  path_stat : string -> stat_result;   (* what Path(p).exists() finds *)
  writable : string -> bool;           (* opening p for writing succeeds *)
  spawn : list string -> proc;         (* fate of a child started with this argv *)
  decodable : list string -> bool;     (* its captured output decodes as text *)
  stdin_line : option string           (* the line input() reads; None: end of file *)
}.

(** [Path(p).exists()] answers [True]. *)
Definition path_exists (w : World) (p : string) : bool :=
  match path_stat w p with
  | Present => true
  | Absent | StatFails _ => false
  end.

(** The namespace [parse_args] returns.  [argparse] only returns [gpt] or
    [mbr] for [--parttable]; the functions below are defined for any
    string. *)
Record Args : Type := {
  arg_list : bool;                     (* --list *)
  arg_target : option string;          (* --target *)
  arg_iso : option string;             (* --iso *)
  arg_parttable : option string;       (* --parttable, choices gpt / mbr *)
  arg_format : option string;          (* --format *)
  arg_yes : bool                       (* --yes *)
}.

(** ** The monad of the script: a trace of events and a result *)

Definition M (A : Type) : Type := (list event * (exn + A))%type.

Definition ret {A} (a : A) : M A := ([], inr a).

Definition raise {A} (e : exn) : M A := ([], inl e).

Definition bind {A B} (m : M A) (k : A -> M B) : M B :=
  match m with
  | (tr, inl e) => (tr, inl e)
  | (tr, inr a) => let (tr', r) := k a in ((tr ++ tr')%list, r)
  end.

Definition emit (e : event) : M pyval := ([e], inr PNone).

Notation "x <- m ;; k" := (bind m (fun x => k))
  (at level 61, m at next level, right associativity).
Notation "m ;; k" := (bind m (fun _ => k))
  (at level 61, right associativity).

(** [try: m  except <class> as e: h e].  The handler says which exceptions
    it takes ([None]: not of the class, the exception goes on). *)
Definition try_except {A} (m : M A) (h : exn -> option (M A)) : M A :=
  match m with
  | (tr, inl e) =>
      match h e with
      | Some k => let (tr', r) := k in ((tr ++ tr')%list, r)
      | None => (tr, inl e)
      end
  | (tr, inr a) => (tr, inr a)
  end.

(** [except subprocess.CalledProcessError as e] *)
Definition except_CalledProcessError {A} (h : exn -> M A) (e : exn) : option (M A) :=
  match e with
  | CalledProcessError _ _ => Some (h e)
  | _ => None
  end.

(** [except Exception as e]: everything but [SystemExit]. *)
Definition except_Exception {A} (h : exn -> M A) (e : exn) : option (M A) :=
  match e with
  | SystemExit _ => None
  | _ => Some (h e)
  end.

Definition trace {A} (m : M A) : list event := fst m.
Definition outcome {A} (m : M A) : exn + A := snd m.

(** Exit status of the interpreter. *)
Definition exit_status {A} (r : exn + A) : Z :=
  match r with
  | inr _ => 0
  | inl (SystemExit (ExitCode n)) => n
  | inl _ => 1
  end.

(** ** Library calls *)

Definition nl : string := String (ascii_of_nat 10) "".

Definition print (args : list pyval) : M pyval := emit (EPrint args).

Definition sys_exit {A} (a : exit_arg) : M A := raise (SystemExit a).

Definition input (w : World) (prompt : string) : M string :=
  emit (EInput prompt) ;;
  match stdin_line w with
  | Some s => ret s
  | None => raise EOFError
  end.

Definition subprocess_call (w : World) (cmd : list string) : M Z :=
  emit (ESpawn cmd) ;;
  match spawn w cmd with
  | Exited st _ => ret st
  | NotStarted msg => raise (OSError msg)
  end.

Definition check_call (w : World) (cmd : list string) : M Z :=
  emit (ESpawn cmd) ;;
  match spawn w cmd with
  | Exited st _ => if (st =? 0)%Z then ret 0%Z else raise (CalledProcessError st cmd)
  | NotStarted msg => raise (OSError msg)
  end.

(** [check_output(cmd, text=True)]: the output is read and decoded before
    the exit status is looked at. *)
Definition check_output (w : World) (cmd : list string) : M string :=
  emit (ESpawn cmd) ;;
  match spawn w cmd with
  | Exited st out =>
      if negb (decodable w cmd) then raise UnicodeDecodeError
      else if (st =? 0)%Z then ret out else raise (CalledProcessError st cmd)
  | NotStarted msg => raise (OSError msg)
  end.

Definition Path_exists (w : World) (p : string) : M bool :=
  match path_stat w p with
  | Present => ret true
  | Absent => ret false
  | StatFails msg => raise (OSError msg)
  end.

Definition write_file (w : World) (path content : string) : M pyval :=
  if writable w path then emit (EWrite path content)
  else raise (OSError path).

(** [s in (t1, ..., tn)] *)
Definition in_tuple (s : string) (l : list string) : bool :=
  existsb (String.eqb s) l.

(** Truth value of an optional string argument: [None] and the empty
    string are false. *)
Definition truthy (o : option string) : bool :=
  match o with
  | Some s => negb (s =? "")
  | None => false
  end.

(** An optional string interpolated in an f-string. *)
Definition fmt (o : option string) : string :=
  match o with
  | Some s => s
  | None => "None"
  end.

(** [join] on a single space. *)
Definition join_sp (l : list string) : string := String.concat " " l.

(** ** usb_writer.py *)

Definition check_root (w : World) : M pyval :=
  if in_tuple (platform_system w) ["Linux"; "Darwin"] then
    if negb (geteuid w =? 0)%Z then
      sys_exit (ExitMsg "This script must be run as root (sudo). Exiting.")
    else ret PNone
  else if platform_system w =? "Windows" then
    (* On Windows, best-effort admin check *)
    try_except
      (match IsUserAnAdmin w with
       | None => raise (AttributeError "windll")
       | Some admin =>
           if negb admin then
             sys_exit (ExitMsg "Please run this script from an elevated Administrator PowerShell. Exiting.")
           else ret PNone
       end)
      (except_Exception (fun _ => ret PNone))
  else ret PNone.

Definition list_disks_unix (w : World) : M pyval :=
  listed <- try_except
      (out <- check_output w ["lsblk"; "-o"; "NAME,SIZE,TYPE,MOUNTPOINT,MODEL,TRAN"] ;;
       print [PStr out] ;;
       ret true)
      (except_Exception (fun _ => ret false)) ;;
  if listed : bool then ret PNone
  else
    try_except
      (out <- check_output w ["cat"; "/proc/partitions"] ;;
       print [PStr out])
      (except_Exception (fun e => print [PStr "Failed to list disks:"; PExc e])).

Definition list_disks_mac (w : World) : M pyval :=
  try_except
    (out <- check_output w ["diskutil"; "list"] ;;
     print [PStr out])
    (except_Exception (fun e => print [PStr "Failed to list disks with diskutil:"; PExc e])).

Definition list_disks_windows (w : World) : M pyval :=
  try_except
    (let cmd := ["powershell"; "-Command"; "Get-Disk | Format-Table -AutoSize"] in
     out <- check_output w cmd ;;
     print [PStr out])
    (except_Exception (fun e => print [PStr "Failed to list disks via PowerShell:"; PExc e])).

Definition list_disks (w : World) : M pyval :=
  let system := platform_system w in
  print [PStr ("Detected OS: " ++ system ++ nl)] ;;
  if system =? "Linux" then list_disks_unix w
  else if system =? "Darwin" then list_disks_mac w
  else if system =? "Windows" then list_disks_windows w
  else print [PStr "Unsupported OS for automatic disk listing"].

Definition create_partition_table_unix (w : World) (device table : string) : M pyval :=
  if which w "sgdisk" then
    let cmd :=
      if table =? "gpt" then ["sgdisk"; "--zap-all"; device]
      else ["sgdisk"; "--mbrtogpt=1"; device] in
    try_except
      (check_call w cmd ;; ret PNone)
      (except_CalledProcessError (fun e => print [PStr "sgdisk failed:"; PExc e]))
  else if which w "parted" then
    try_except
      (check_call w ["parted"; "-s"; device; "mklabel"; table] ;; ret PNone)
      (except_CalledProcessError (fun e => print [PStr "parted failed:"; PExc e]))
  else
    sys_exit (ExitMsg "Neither sgdisk nor parted found. Install parted (or gdisk) and retry.").

Definition format_partition_unix (w : World) (device fs_type : string) : M pyval :=
  if negb (which w "parted") then
    sys_exit (ExitMsg "parted not available. Install parted and retry.")
  else
    (* the handler of the first try ends in [return]: [created] tells
       whether the body of the function goes on *)
    created <- try_except
        (check_call w ["parted"; "-s"; device; "mkpart"; "primary"; fs_type; "0%"; "100%"] ;;
         ret true)
        (except_CalledProcessError
           (fun e => print [PStr "Failed to create partition:"; PExc e] ;; ret false)) ;;
    if created : bool then
      part <- (if platform_system w =? "Linux" then ret (device ++ "1")
               else if platform_system w =? "Darwin" then ret (device ++ "s1")
               else sys_exit (ExitMsg "Unsupported OS for formatting partitions via this script")) ;;
      (if negb (platform_system w =? "Windows")
       then subprocess_call w ["sleep"; "1"] ;; ret PNone
       else ret PNone) ;;
      mkcmd <- (if in_tuple fs_type ["ext4"; "ext3"; "ext2"] then ret ["mkfs." ++ fs_type; part]
                else if in_tuple fs_type ["vfat"; "fat32"] then ret ["mkfs.vfat"; part]
                else if fs_type =? "ntfs" then ret ["mkfs.ntfs"; part]
                else sys_exit (ExitMsg ("Unsupported filesystem: " ++ fs_type))) ;;
      try_except
        (check_call w mkcmd ;; ret PNone)
        (except_CalledProcessError (fun e => print [PStr "mkfs failed:"; PExc e]))
    else ret PNone.

Definition write_iso_unix (w : World) (device iso_path : string) : M pyval :=
  found <- Path_exists w iso_path ;;
  if negb found then
    sys_exit (ExitMsg ("ISO file not found: " ++ iso_path))
  else
    let bs := "4M" in
    let conv := "status=progress conv=fsync" in
    let cmd := ["dd"; "if=" ++ iso_path; "of=" ++ device; "bs=" ++ bs; conv] in
    print [PStr "Running:"; PStr (join_sp cmd)] ;;
    try_except
      (check_call w cmd ;; ret PNone)
      (except_CalledProcessError (fun e => print [PStr "dd failed:"; PExc e])).

Definition write_iso_windows (w : World) (device_number iso_path : string) : M pyval :=
  sys_exit (ExitMsg "Windows raw write not implemented. Use Rufus or Win32 Disk Imager on Windows.").

Definition confirm (w : World) (target : string) : M pyval :=
  print [PStr (nl ++ "!!! WARNING !!!")] ;;
  print [PStr ("About to erase/modify device: " ++ target)] ;;
  print [PStr "This action is destructive and irreversible. Make sure you selected the correct device."] ;;
  ans <- input w "Type the device path (or 'YES' to confirm): " ;;
  if negb (ans =? target) && negb (ans =? "YES") then
    print [PStr "Confirmation failed. Aborting."] ;;
    sys_exit (ExitCode 1)
  else ret PNone.

(** [parser.error(msg)]: usage and message on stderr, then [sys.exit(2)]. *)
Definition parser_error {A} (msg : string) : M A := sys_exit (ExitCode 2).

Definition diskpart_script (target : string) (parttable format : option string) : string :=
  "select disk " ++ target ++ nl ++ "clean" ++ nl ++
  "convert " ++ fmt parttable ++ nl ++
  "create partition primary" ++ nl ++
  "format fs=" ++ fmt format ++ " quick" ++ nl ++
  "assign" ++ nl ++ "exit" ++ nl.

(** The body of [main] from line 201 on, once [parse_args] has returned
    the namespace [a]; [script] below adds the exits of [parse_args]
    itself. *)
Definition main (w : World) (a : Args) : M pyval :=
  if arg_list a then list_disks w
  else if negb (truthy (arg_target a)) then
    parser_error "--target is required unless --list is used"
  else
    check_root w ;;
    let system := platform_system w in
    let target := fmt (arg_target a) in
    (if negb (arg_yes a) then confirm w target else ret PNone) ;;
    (* If user asked to create partition table *)
    (if truthy (arg_parttable a) then
       if in_tuple system ["Linux"; "Darwin"] then
         print [PStr ("Creating partition table " ++ fmt (arg_parttable a) ++ " on " ++ target)] ;;
         create_partition_table_unix w target (fmt (arg_parttable a)) ;;
         if truthy (arg_format a) then format_partition_unix w target (fmt (arg_format a))
         else ret PNone
       else if system =? "Windows" then
         print [PStr "Windows partitioning/formatting path"] ;;
         let ps := diskpart_script target (arg_parttable a) (arg_format a) in
         print [PStr "Running diskpart script (requires admin)"] ;;
         let pfile := if negb (platform_system w =? "Windows")
                      then "/tmp/diskpart_script.txt" else "diskpart_script.txt" in
         write_file w pfile ps ;;
         try_except
           (check_call w ["diskpart"; "/s"; pfile] ;; ret PNone)
           (except_Exception (fun e => print [PStr "diskpart failed:"; PExc e]))
       else ret PNone
     else ret PNone) ;;
    (* If user asked to write ISO raw *)
    (if truthy (arg_iso a) then
       if in_tuple system ["Linux"; "Darwin"] then write_iso_unix w target (fmt (arg_iso a))
       else if system =? "Windows" then write_iso_windows w target (fmt (arg_iso a))
       else ret PNone
     else ret PNone) ;;
    print [PStr "Done. Remember to safely eject the device."].

(** ** The steps of [main]

    [main] is one function in the source; for the statements below its
    body is cut at the comments of the source into the confirmation, the
    partitioning/formatting block and the image block.  [main_steps] checks
    that the cut is the same program. *)

(** [target = args.target], once it is known to be given. *)
Definition target_of (a : Args) : string := fmt (arg_target a).

Definition confirm_step (w : World) (a : Args) : M pyval :=
  if negb (arg_yes a) then confirm w (target_of a) else ret PNone.

Definition partition_step (w : World) (a : Args) : M pyval :=
  let system := platform_system w in
  let target := target_of a in
  if truthy (arg_parttable a) then
    if in_tuple system ["Linux"; "Darwin"] then
      print [PStr ("Creating partition table " ++ fmt (arg_parttable a) ++ " on " ++ target)] ;;
      create_partition_table_unix w target (fmt (arg_parttable a)) ;;
      if truthy (arg_format a) then format_partition_unix w target (fmt (arg_format a))
      else ret PNone
    else if system =? "Windows" then
      print [PStr "Windows partitioning/formatting path"] ;;
      let ps := diskpart_script target (arg_parttable a) (arg_format a) in
      print [PStr "Running diskpart script (requires admin)"] ;;
      let pfile := if negb (platform_system w =? "Windows")
                   then "/tmp/diskpart_script.txt" else "diskpart_script.txt" in
      write_file w pfile ps ;;
      try_except
        (check_call w ["diskpart"; "/s"; pfile] ;; ret PNone)
        (except_Exception (fun e => print [PStr "diskpart failed:"; PExc e]))
    else ret PNone
  else ret PNone.

Definition image_step (w : World) (a : Args) : M pyval :=
  let system := platform_system w in
  let target := target_of a in
  if truthy (arg_iso a) then
    if in_tuple system ["Linux"; "Darwin"] then write_iso_unix w target (fmt (arg_iso a))
    else if system =? "Windows" then write_iso_windows w target (fmt (arg_iso a))
    else ret PNone
  else ret PNone.

Definition done_msg : event :=
  EPrint [PStr "Done. Remember to safely eject the device."].

(** The run after argument handling: privilege check, confirmation, then
    the plan. *)
Definition run_target (w : World) (a : Args) : M pyval :=
  check_root w ;;
  confirm_step w a ;;
  partition_step w a ;;
  image_step w a ;;
  emit done_msg.

(** The same run as the list of its steps, run one after the other. *)
Definition plan (w : World) (a : Args) : list (M pyval) :=
  [check_root w; confirm_step w a; partition_step w a; image_step w a; emit done_msg].

Fixpoint in_sequence (steps : list (M pyval)) : M pyval :=
  match steps with
  | [] => ret PNone
  | m :: steps' => m ;; in_sequence steps'
  end.

(** ** Observing a run *)

(** The argument vectors handed to [subprocess], in order. *)
Definition spawned (tr : list event) : list (list string) :=
  flat_map (fun e => match e with ESpawn c => [c] | _ => [] end) tr.

Definition prog (cmd : list string) : string := hd "" cmd.

Definition is_dd (cmd : list string) : bool := prog cmd =? "dd".
Definition is_mkfs (cmd : list string) : bool := String.prefix "mkfs." (prog cmd).
Definition is_sgdisk (cmd : list string) : bool := prog cmd =? "sgdisk".
Definition is_diskpart (cmd : list string) : bool := prog cmd =? "diskpart".
Definition is_mklabel (cmd : list string) : bool :=
  (prog cmd =? "parted") && (nth 3 cmd "" =? "mklabel").
Definition is_mkpart (cmd : list string) : bool :=
  (prog cmd =? "parted") && (nth 3 cmd "" =? "mkpart").

(** The delegates by role.  [diskpart] runs the whole scripted
    clean/convert/create/format sequence, so it has both roles. *)
Definition partitioning (cmd : list string) : bool :=
  is_sgdisk cmd || is_mklabel cmd || is_diskpart cmd.
Definition formatting (cmd : list string) : bool :=
  is_mkpart cmd || is_mkfs cmd || is_diskpart cmd.
Definition destructive (cmd : list string) : bool :=
  partitioning cmd || formatting cmd || is_dd cmd.

(** No command of the class [p] was handed to [subprocess]. *)
Definition never (p : list string -> bool) (tr : list event) : Prop :=
  existsb p (spawned tr) = false.

(** The filesystem kinds [format_partition_unix] has an mkfs for. *)
Definition supported_fs (fs_type : string) : bool :=
  in_tuple fs_type ["ext4"; "ext3"; "ext2"] || in_tuple fs_type ["vfat"; "fat32"]
  || (fs_type =? "ntfs").

(** The privilege check reports that the process is not privileged. *)
Definition denied (w : World) : bool :=
  if in_tuple (platform_system w) ["Linux"; "Darwin"] then negb (geteuid w =? 0)%Z
  else if platform_system w =? "Windows" then
    match IsUserAnAdmin w with Some admin => negb admin | None => false end
  else false.

(** The privilege check has found the process privileged. *)
Definition verified (w : World) : bool :=
  if in_tuple (platform_system w) ["Linux"; "Darwin"] then (geteuid w =? 0)%Z
  else if platform_system w =? "Windows" then
    match IsUserAnAdmin w with Some admin => admin | None => false end
  else false.

(** The computation ends without an exception. *)
Definition returns {A} (m : M A) : bool :=
  match outcome m with
  | inr _ => true
  | inl _ => false
  end.

(** The way [confirm] ends a run: [sys.exit(1)]. *)
Definition aborted : exn + pyval := inl (SystemExit (ExitCode 1)).

Definition confirm_prompt : string := "Type the device path (or 'YES' to confirm): ".

(** What [confirm] prints and asks before it looks at the answer. *)
Definition confirm_events (target : string) : list event :=
  [ EPrint [PStr (nl ++ "!!! WARNING !!!")];
    EPrint [PStr ("About to erase/modify device: " ++ target)];
    EPrint [PStr "This action is destructive and irreversible. Make sure you selected the correct device."];
    EInput confirm_prompt ].

(** The argument vectors of [format_partition_unix] and [write_iso_unix]. *)
Definition mkpart_cmd (device fs_type : string) : list string :=
  ["parted"; "-s"; device; "mkpart"; "primary"; fs_type; "0%"; "100%"].

Definition dd_cmd (device iso_path : string) : list string :=
  ["dd"; "if=" ++ iso_path; "of=" ++ device; "bs=4M"; "status=progress conv=fsync"].

(** The way [format_partition_unix] rejects a filesystem kind. *)
Definition unsupported_filesystem (fs_type : string) : exn + pyval :=
  inl (SystemExit (ExitMsg ("Unsupported filesystem: " ++ fs_type))).

(** The events of a run on Linux or macOS up to the formatting step. *)
Definition before_formatting (w : World) (a : Args) : list event :=
  (trace (confirm_step w a) ++
   EPrint [PStr ("Creating partition table " ++ fmt (arg_parttable a) ++ " on " ++ target_of a)]
   :: trace (create_partition_table_unix w (target_of a) (fmt (arg_parttable a))))%list.

(** What remains of the run after the partitioning/formatting block. *)
Definition after_partitioning (w : World) (a : Args) : M pyval :=
  image_step w a ;; emit done_msg.

(** Every destructive command of the trace that ran and exited with a
    failure status is followed at once by a print of a label and of its
    [CalledProcessError]. *)
Fixpoint diagnosed (w : World) (tr : list event) : Prop :=
  match tr with
  | [] => True
  | ESpawn cmd :: rest =>
      (destructive cmd = true ->
       forall st out, spawn w cmd = Exited st out -> st <> 0%Z ->
       exists label rest',
         rest = EPrint [PStr label; PExc (CalledProcessError st cmd)] :: rest')
      /\ diagnosed w rest
  | _ :: rest => diagnosed w rest
  end.

(** Whatever the computation raises gives a non-zero exit status, and is
    not the failure status of a child process. *)
Definition loud {A} (m : M A) : Prop :=
  forall e, outcome m = inl e ->
    exit_status (inl e : exn + pyval) <> 0%Z
    /\ forall st cmd, e <> CalledProcessError st cmd.

(** ** Further observations *)

(** Whatever the computation raises gives exit status 1. *)
Definition fatal {A} (m : M A) : Prop :=
  forall e, outcome m = inl e -> exit_status (inl e : exn + pyval) = 1%Z.



(** The child ran and exited with status 0. *)
Definition succeeded (w : World) (cmd : list string) : bool :=
  match spawn w cmd with
  | Exited st _ => (st =? 0)%Z
  | NotStarted _ => false
  end.

(** The child could be started. *)
Definition started (w : World) (cmd : list string) : bool :=
  match spawn w cmd with
  | Exited _ _ => true
  | NotStarted _ => false
  end.

(** The name [format_partition_unix] gives to the first partition. *)
Definition first_partition (w : World) (device : string) : string :=
  if platform_system w =? "Linux" then device ++ "1" else device ++ "s1".




(** The mkfs command of [format_partition_unix] for a supported kind. *)
Definition mkfs_cmd (w : World) (device fs_type : string) : list string :=
  [ (if in_tuple fs_type ["ext4"; "ext3"; "ext2"] then "mkfs." ++ fs_type
     else if in_tuple fs_type ["vfat"; "fat32"] then "mkfs.vfat"
     else "mkfs.ntfs");
    first_partition w device ].

(** The causes that make [format_partition_unix] raise: parted is not
    installed; [parted mkpart] cannot be started; or it exited with status
    0 and then the platform is neither Linux nor macOS, the sleep cannot be
    started, the kind is not supported, or mkfs cannot be started. *)
Definition formatting_gives_up (w : World) (device fs_type : string) : bool :=
  negb (which w "parted")
  || negb (started w (mkpart_cmd device fs_type))
  || (succeeded w (mkpart_cmd device fs_type)
      && (negb (in_tuple (platform_system w) ["Linux"; "Darwin"])
          || negb (started w ["sleep"; "1"])
          || negb (supported_fs fs_type)
          || negb (started w (mkfs_cmd w device fs_type)))).

(** What [parser.parse_args()] (line 199) does with the command line: it
    returns a namespace, or it ends the script itself, after printing the
    help ([-h], status 0) or a usage error (an unknown option, a
    [--parttable] other than gpt and mbr, a missing value; status 2). *)
Inductive parse_result : Type :=
| Namespace (a : Args)
| HelpShown
| UsageError.

(** The script from its first line: [parse_args], then the body of [main]
    on the namespace. *)
Definition script (w : World) (cmdline : parse_result) : M pyval :=
  match cmdline with
  | Namespace a => main w a
  | HelpShown => sys_exit (ExitCode 0)
  | UsageError => sys_exit (ExitCode 2)
  end.

(** The command [create_partition_table_unix] picks, if any. *)
Definition provisioning_cmd (w : World) (device table : string) : option (list string) :=
  if which w "sgdisk" then
    Some ["sgdisk"; if table =? "gpt" then "--zap-all" else "--mbrtogpt=1"; device]
  else if which w "parted" then Some ["parted"; "-s"; device; "mklabel"; table]
  else None.


(** ** Sample worlds and command lines *)

(** Linux, run as root, every tool installed, every file present, every
    child exiting with status 0. *)
Definition linux_root : World :=
  {| platform_system := "Linux"; geteuid := 0; IsUserAnAdmin := None;
     which := fun _ => true; path_stat := fun _ => Present;
     writable := fun _ => true; spawn := fun _ => Exited 0 ""; decodable := fun _ => true;
     stdin_line := Some "YES" |}.

Definition with_spawn (w : World) (f : list string -> proc) : World :=
  {| platform_system := platform_system w; geteuid := geteuid w;
     IsUserAnAdmin := IsUserAnAdmin w; which := which w;
     path_stat := path_stat w; writable := writable w;
     spawn := f; decodable := decodable w; stdin_line := stdin_line w |}.

Definition with_which (w : World) (f : string -> bool) : World :=
  {| platform_system := platform_system w; geteuid := geteuid w;
     IsUserAnAdmin := IsUserAnAdmin w; which := f;
     path_stat := path_stat w; writable := writable w;
     spawn := spawn w; decodable := decodable w; stdin_line := stdin_line w |}.

Definition with_files (w : World) (f : string -> bool) : World :=
  {| platform_system := platform_system w; geteuid := geteuid w;
     IsUserAnAdmin := IsUserAnAdmin w; which := which w;
     path_stat := (fun p => if f p then Present else Absent);
     writable := writable w;
     spawn := spawn w; decodable := decodable w; stdin_line := stdin_line w |}.


Definition with_stdin (w : World) (l : option string) : World :=
  {| platform_system := platform_system w; geteuid := geteuid w;
     IsUserAnAdmin := IsUserAnAdmin w; which := which w;
     path_stat := path_stat w; writable := writable w;
     spawn := spawn w; decodable := decodable w; stdin_line := l |}.

(** Windows, with the given answer of the administrator check. *)
Definition windows (admin : option bool) : World :=
  {| platform_system := "Windows"; geteuid := 0; IsUserAnAdmin := admin;
     which := fun _ => false; path_stat := fun _ => Present;
     writable := fun _ => true; spawn := fun _ => Exited 0 ""; decodable := fun _ => true;
     stdin_line := Some "YES" |}.

(** A child that fails when its program is [p], and succeeds otherwise. *)
Definition failing (p : string) (cmd : list string) : proc :=
  if prog cmd =? p then Exited 1 "" else Exited 0 "".

(** A child that cannot be started when its program is [p], and succeeds
    otherwise. *)
Definition unstartable (p : string) (cmd : list string) : proc :=
  if prog cmd =? p then NotStarted p else Exited 0 "".

(** [--target /dev/sdb --parttable gpt --format ext4 --iso linux.iso --yes] *)
Definition full_args : Args :=
  {| arg_list := false; arg_target := Some "/dev/sdb"; arg_iso := Some "linux.iso";
     arg_parttable := Some "gpt"; arg_format := Some "ext4"; arg_yes := true |}.

(** The same command line without [--yes]. *)
Definition interactive_args : Args :=
  {| arg_list := false; arg_target := Some "/dev/sdb"; arg_iso := Some "linux.iso";
     arg_parttable := Some "gpt"; arg_format := Some "ext4"; arg_yes := false |}.

(** [--target /dev/sdb --iso linux.iso --yes] *)
Definition only_iso : Args :=
  {| arg_list := false; arg_target := Some "/dev/sdb"; arg_iso := Some "linux.iso";
     arg_parttable := None; arg_format := None; arg_yes := true |}.

(** The command line [a] with its [--format] option removed. *)
Definition without_format (a : Args) : Args :=
  {| arg_list := arg_list a; arg_target := arg_target a; arg_iso := arg_iso a;
     arg_parttable := arg_parttable a; arg_format := None; arg_yes := arg_yes a |}.

(** [--target 1 --parttable gpt --yes] *)
Definition windows_gpt_no_format : Args :=
  {| arg_list := false; arg_target := Some "1"; arg_iso := None;
     arg_parttable := Some "gpt"; arg_format := None; arg_yes := true |}.

(** [--target /dev/sdb --format ext4 --yes], with or without [--iso]. *)
Definition format_only (iso : option string) : Args :=
  {| arg_list := false; arg_target := Some "/dev/sdb"; arg_iso := iso;
     arg_parttable := None; arg_format := Some "ext4"; arg_yes := true |}.

(** Linux as root, where the existence check of any path fails with an
    error that [exists] does not take for an answer. *)
Definition name_too_long : World :=
  {| platform_system := "Linux"; geteuid := 0; IsUserAnAdmin := None;
     which := fun _ => true; path_stat := fun _ => StatFails "File name too long";
     writable := fun _ => true; spawn := fun _ => Exited 0 ""; decodable := fun _ => true;
     stdin_line := Some "YES" |}.

(** A platform the script has no tools for. *)
Definition freebsd : World :=
  {| platform_system := "FreeBSD"; geteuid := 1000; IsUserAnAdmin := None;
     which := fun _ => true; path_stat := fun _ => Present;
     writable := fun _ => true; spawn := fun _ => Exited 0 ""; decodable := fun _ => true;
     stdin_line := Some "YES" |}.

(** [--list], with every other option given as well. *)
Definition list_args : Args :=
  {| arg_list := true; arg_target := Some "/dev/sdb"; arg_iso := Some "linux.iso";
     arg_parttable := Some "gpt"; arg_format := Some "ext4"; arg_yes := false |}.

(** [--target 1 --parttable gpt --format ntfs --iso win.iso --yes] *)
Definition windows_full_args : Args :=
  {| arg_list := false; arg_target := Some "1"; arg_iso := Some "win.iso";
     arg_parttable := Some "gpt"; arg_format := Some "ntfs"; arg_yes := true |}.

(** * Properties *)

(** A complete run: provisioning, formatting, raw write. *)
Example full_run_linux :
  main linux_root full_args =
    ([ EPrint [PStr "Creating partition table gpt on /dev/sdb"];
       ESpawn ["sgdisk"; "--zap-all"; "/dev/sdb"];
       ESpawn (mkpart_cmd "/dev/sdb" "ext4");
       ESpawn ["sleep"; "1"];
       ESpawn ["mkfs.ext4"; "/dev/sdb1"];
       EPrint [PStr "Running:";
               PStr "dd if=linux.iso of=/dev/sdb bs=4M status=progress conv=fsync"];
       ESpawn (dd_cmd "/dev/sdb" "linux.iso");
       done_msg ],
     inr PNone).
Proof. reflexivity. Qed.

(** On macOS the partition is [<device>s1]; vfat and fat32 share an mkfs. *)
Example format_fat32_darwin :
  format_partition_unix
    {| platform_system := "Darwin"; geteuid := 0; IsUserAnAdmin := None;
       which := fun _ => true; path_stat := fun _ => Present;
       writable := fun _ => true; spawn := fun _ => Exited 0 ""; decodable := fun _ => true;
       stdin_line := None |}
    "/dev/disk2" "fat32" =
    ([ ESpawn (mkpart_cmd "/dev/disk2" "fat32");
       ESpawn ["sleep"; "1"];
       ESpawn ["mkfs.vfat"; "/dev/disk2s1"] ],
     inr PNone).
Proof. reflexivity. Qed.

(** Listing falls back on /proc/partitions when lsblk cannot be run. *)
Example list_fallback :
  main (with_spawn linux_root
          (fun cmd => if prog cmd =? "lsblk" then NotStarted "lsblk"
                      else Exited 0 "major minor  #blocks  name"))
       {| arg_list := true; arg_target := None; arg_iso := None;
          arg_parttable := None; arg_format := None; arg_yes := false |} =
    ([ EPrint [PStr ("Detected OS: Linux" ++ nl)];
       ESpawn ["lsblk"; "-o"; "NAME,SIZE,TYPE,MOUNTPOINT,MODEL,TRAN"];
       ESpawn ["cat"; "/proc/partitions"];
       EPrint [PStr "major minor  #blocks  name"] ],
     inr PNone).
Proof. reflexivity. Qed.

Lemma main_steps (w : World) (a : Args) :
  main w a =
  if arg_list a then list_disks w
  else if negb (truthy (arg_target a)) then sys_exit (ExitCode 2)
  else run_target w a.
Proof. reflexivity. Qed.

(** ** The monad *)

Section MonadFacts.
Context {A B : Type}.
Implicit Types (m : M A) (k : A -> M B).

Lemma trace_bind m k :
  trace (bind m k) =
  match outcome m with
  | inl _ => trace m
  | inr x => (trace m ++ trace (k x))%list
  end.
Proof.
  destruct m as [tr [e | x]]; simpl; [reflexivity |].
  destruct (k x); reflexivity.
Qed.

Lemma outcome_bind m k :
  outcome (bind m k) =
  match outcome m with
  | inl e => inl e
  | inr x => outcome (k x)
  end.
Proof.
  destruct m as [tr [e | x]]; simpl; [reflexivity |].
  destruct (k x); reflexivity.
Qed.

Lemma bind_raises m k e :
  outcome m = inl e -> bind m k = (trace m, inl e).
Proof. destruct m as [tr [e' | x]]; simpl; congruence. Qed.

Lemma bind_returns m k x :
  outcome m = inr x ->
  bind m k = ((trace m ++ trace (k x))%list, outcome (k x)).
Proof.
  destruct m as [tr [e' | x']]; simpl; [congruence |].
  intros [= ->]. destruct (k x); reflexivity.
Qed.
End MonadFacts.

Lemma trace_try {A} (m : M A) h :
  trace (try_except m h) =
  match outcome m with
  | inl e => match h e with
             | Some k => (trace m ++ trace k)%list
             | None => trace m
             end
  | inr _ => trace m
  end.
Proof.
  destruct m as [tr [e | x]]; simpl; [| reflexivity].
  destruct (h e) as [[tr' r] |]; reflexivity.
Qed.

Lemma outcome_try {A} (m : M A) h :
  outcome (try_except m h) =
  match outcome m with
  | inl e => match h e with
             | Some k => outcome k
             | None => inl e
             end
  | inr x => inr x
  end.
Proof.
  destruct m as [tr [e | x]]; simpl; [| reflexivity].
  destruct (h e) as [[tr' r] |]; reflexivity.
Qed.

Lemma bind_assoc {A B C} (m : M A) (k : A -> M B) (k' : B -> M C) :
  bind (bind m k) k' = bind m (fun x => bind (k x) k').
Proof.
  destruct m as [tr [e | x]]; simpl; [reflexivity |].
  destruct (k x) as [tr1 [e1 | y]]; simpl; [reflexivity |].
  destruct (k' y) as [tr2 r]. now rewrite app_assoc.
Qed.

(** ** Commands that a computation never runs *)

Lemma spawned_app (a b : list event) :
  spawned (a ++ b) = (spawned a ++ spawned b)%list.
Proof. apply flat_map_app. Qed.

Lemma never_app p (a b : list event) :
  never p a -> never p b -> never p (a ++ b).
Proof.
  unfold never. intros Ha Hb.
  now rewrite spawned_app, existsb_app, Ha, Hb.
Qed.

Lemma never_app_inv p (a b : list event) :
  never p (a ++ b) -> never p a /\ never p b.
Proof.
  unfold never. rewrite spawned_app, existsb_app.
  apply orb_false_elim.
Qed.

Lemma never_bind {A B} p (m : M A) (k : A -> M B) :
  never p (trace m) ->
  (forall x, outcome m = inr x -> never p (trace (k x))) ->
  never p (trace (bind m k)).
Proof.
  intros Hm Hk. rewrite trace_bind.
  destruct (outcome m) as [e | x] eqn:E; [exact Hm |].
  apply never_app; auto.
Qed.

Lemma never_try {A} p (m : M A) h :
  never p (trace m) ->
  (forall e k, outcome m = inl e -> h e = Some k -> never p (trace k)) ->
  never p (trace (try_except m h)).
Proof.
  intros Hm Hh. rewrite trace_try.
  destruct (outcome m) as [e | x] eqn:E; [| exact Hm].
  destruct (h e) as [k |] eqn:Ek; [| exact Hm].
  apply never_app; eauto.
Qed.

Lemma never_check_call p w cmd :
  p cmd = false -> never p (trace (check_call w cmd)).
Proof.
  intros Hp. unfold check_call, never.
  destruct (spawn w cmd) as [st out | msg]; simpl;
    [destruct (st =? 0)%Z |]; simpl; now rewrite Hp.
Qed.

Lemma never_check_output p w cmd :
  p cmd = false -> never p (trace (check_output w cmd)).
Proof.
  intros Hp. unfold check_output, never.
  destruct (spawn w cmd) as [st out | msg]; simpl;
    [destruct (decodable w cmd); simpl; [destruct (st =? 0)%Z |] |];
    simpl; now rewrite Hp.
Qed.

Lemma never_subprocess_call p w cmd :
  p cmd = false -> never p (trace (subprocess_call w cmd)).
Proof.
  intros Hp. unfold subprocess_call, never.
  destruct (spawn w cmd) as [st out | msg]; simpl; now rewrite Hp.
Qed.

Lemma never_no_spawn p (tr : list event) :
  spawned tr = [] -> never p tr.
Proof. unfold never. now intros ->. Qed.

(** Which handler ran. *)
Ltac handler H :=
  unfold except_CalledProcessError, except_Exception in H;
  match type of H with
  | match ?e with _ => _ end = Some _ => destruct e; try discriminate H
  end;
  injection H as <-.

(** What a branching computation returned. *)
Ltac returned H :=
  repeat match type of H with
         | outcome (if ?b then _ else _) = _ => destruct b eqn:?
         end;
  simpl in H; try discriminate H; try (injection H as <-).

Ltac never_step :=
  cbv zeta;
  match goal with
  | |- never _ (trace (bind _ _)) =>
      apply never_bind; [| let x := fresh "x" in let H := fresh "Hx" in
                           intros x H; try returned H]
  | |- never _ (trace (try_except _ _)) =>
      apply never_try; [| let H := fresh "Hh" in intros ? ? _ H; handler H]
  | |- context [check_call _ (if ?b then _ else _)] => destruct b eqn:?
  | |- never _ (trace (check_call _ _)) => apply never_check_call; reflexivity
  | |- never _ (trace (check_output _ _)) => apply never_check_output; reflexivity
  | |- never _ (trace (subprocess_call _ _)) => apply never_subprocess_call; reflexivity
  | |- never _ (trace (if ?b then _ else _)) => destruct b eqn:?
  | |- never _ (trace (match ?o with _ => _ end)) => destruct o eqn:?
  | |- never _ _ => reflexivity
  end.

Ltac never_run := repeat never_step.

Lemma check_root_spawns_nothing w : spawned (trace (check_root w)) = [].
Proof.
  unfold check_root.
  destruct (in_tuple _ _); [destruct (negb _); reflexivity |].
  destruct (_ =? _); [| reflexivity].
  destruct (IsUserAnAdmin w) as [[|] |]; reflexivity.
Qed.

Lemma confirm_spawns_nothing w target : spawned (trace (confirm w target)) = [].
Proof.
  unfold confirm, input. simpl.
  destruct (stdin_line w) as [ans |]; simpl; [| reflexivity].
  destruct (negb (ans =? target) && negb (ans =? "YES")); reflexivity.
Qed.

Lemma confirm_step_spawns_nothing w a : spawned (trace (confirm_step w a)) = [].
Proof.
  unfold confirm_step. destruct (negb (arg_yes a)); [| reflexivity].
  apply confirm_spawns_nothing.
Qed.

Lemma list_disks_never_destructive w : never destructive (trace (list_disks w)).
Proof.
  unfold list_disks, list_disks_unix, list_disks_mac, list_disks_windows.
  never_run.
Qed.

Lemma create_partition_table_never_dd w device table :
  never is_dd (trace (create_partition_table_unix w device table)).
Proof. unfold create_partition_table_unix. never_run. Qed.

Lemma format_partition_never_dd w device fs_type :
  never is_dd (trace (format_partition_unix w device fs_type)).
Proof. unfold format_partition_unix. never_run. Qed.

Lemma partition_step_never_dd w a : never is_dd (trace (partition_step w a)).
Proof.
  unfold partition_step. never_run;
    auto using create_partition_table_never_dd, format_partition_never_dd.
  unfold write_file. never_run.
Qed.

Lemma image_step_only_dd w a p :
  (forall cmd, is_dd cmd = true -> p cmd = false) ->
  never p (trace (image_step w a)).
Proof.
  intros Hp. unfold image_step, write_iso_unix, Path_exists, write_iso_windows.
  never_run.
  apply never_check_call, Hp. reflexivity.
Qed.

Lemma never_weaken (p q : list string -> bool) tr :
  (forall cmd, q cmd = true -> p cmd = true) -> never p tr -> never q tr.
Proof.
  unfold never. intros Hpq. induction (spawned tr) as [| c l IH]; simpl; [auto |].
  intros [Hc Hl]%orb_false_elim. rewrite (IH Hl), orb_false_r.
  destruct (q c) eqn:Q; [| reflexivity]. now rewrite (Hpq c Q) in Hc.
Qed.

Lemma dd_destructive cmd : is_dd cmd = true -> destructive cmd = true.
Proof. unfold destructive. intros ->. apply orb_true_r. Qed.

Lemma check_root_silent w : trace (check_root w) = [].
Proof.
  unfold check_root.
  destruct (in_tuple _ _); [destruct (negb _); reflexivity |].
  destruct (_ =? _); [| reflexivity].
  destruct (IsUserAnAdmin w) as [[|] |]; reflexivity.
Qed.

(** ** The image step *)

Lemma image_step_missing w a iso_path :
  arg_iso a = Some iso_path -> path_exists w iso_path = false ->
  trace (image_step w a) = [].
Proof.
  intros Ha He. unfold path_exists in He.
  unfold image_step, write_iso_unix, Path_exists, write_iso_windows.
  rewrite Ha. simpl fmt.
  destruct (truthy _); [| reflexivity].
  destruct (in_tuple _ _); [| destruct (_ =? _); reflexivity].
  destruct (path_stat w iso_path); [discriminate He | reflexivity | reflexivity].
Qed.

Lemma run_target_never_dd_but_image w a :
  never is_dd (trace (image_step w a)) -> never is_dd (trace (run_target w a)).
Proof.
  intros Hi. unfold run_target.
  apply never_bind; [apply never_no_spawn, check_root_spawns_nothing | intros _ _].
  apply never_bind; [apply never_no_spawn, confirm_step_spawns_nothing | intros _ _].
  apply never_bind; [apply partition_step_never_dd | intros _ _].
  apply never_bind; [exact Hi | intros _ _]. reflexivity.
Qed.

(** Claim C7.  When [Path(iso_path).exists()] does not answer [True],
    [write_iso_unix] fails in its precondition check and has done nothing
    before: its trace is empty, so no [dd] was started.  It raises
    [SystemExit] with the message "ISO file not found: <path>" when
    [exists] answers [False], and when the check itself fails (a name too
    long, for instance) the [OSError] of the check.  The same holds of a
    whole run asked to write that image: [dd] is never started. *)
Theorem write_iso_unix_missing_image w device iso_path :
  path_exists w iso_path = false ->
  write_iso_unix w device iso_path =
    ([], inl match path_stat w iso_path with
             | StatFails msg => OSError msg
             | _ => SystemExit (ExitMsg ("ISO file not found: " ++ iso_path))
             end)
  /\ forall a, arg_iso a = Some iso_path -> never is_dd (trace (main w a)).
Proof.
  intros He. split.
  - unfold path_exists in He. unfold write_iso_unix, Path_exists.
    destruct (path_stat w iso_path); [discriminate He | reflexivity | reflexivity].
  - intros a Ha. rewrite main_steps.
    destruct (arg_list a).
    + apply (never_weaken destructive); [apply dd_destructive |].
      apply list_disks_never_destructive.
    + destruct (negb (truthy (arg_target a))); [reflexivity |].
      apply run_target_never_dd_but_image.
      now rewrite (image_step_missing w a iso_path Ha He).
Qed.

Lemma write_iso_unix_missing_image_witness :
  (write_iso_unix (with_files linux_root (fun _ => false)) "/dev/sdb" "linux.iso" =
     ([], inl (SystemExit (ExitMsg "ISO file not found: linux.iso")))
   /\ never is_dd (trace (main (with_files linux_root (fun _ => false)) full_args)))
  /\ (write_iso_unix name_too_long "/dev/sdb" "linux.iso" =
        ([], inl (OSError "File name too long"))
      /\ never is_dd (trace (main name_too_long full_args))).
Proof.
  destruct (write_iso_unix_missing_image
              (with_files linux_root (fun _ => false)) "/dev/sdb" "linux.iso"
              eq_refl) as [H1 H2].
  destruct (write_iso_unix_missing_image name_too_long "/dev/sdb" "linux.iso"
              eq_refl) as [H3 H4].
  split; (split; [assumption |]); [exact (H2 full_args eq_refl) | exact (H4 full_args eq_refl)].
Defined.

(** ** The confirmation gate *)

Lemma confirm_refused w target ans :
  stdin_line w = Some ans -> ans <> target -> ans <> "YES" ->
  confirm w target =
    ((confirm_events target ++ [EPrint [PStr "Confirmation failed. Aborting."]])%list,
     aborted).
Proof.
  intros Hin Ht Hy. unfold confirm, input. simpl. rewrite Hin. simpl.
  destruct (String.eqb_spec ans target) as [-> | _]; [contradiction |].
  destruct (String.eqb_spec ans "YES") as [-> | _]; [contradiction |].
  reflexivity.
Qed.

Lemma confirm_accepted w target ans :
  stdin_line w = Some ans -> ans = target \/ ans = "YES" ->
  confirm w target = (confirm_events target, inr PNone).
Proof.
  intros Hin Hok. unfold confirm, input. simpl. rewrite Hin. simpl.
  destruct (String.eqb_spec ans target) as [_ | Ht]; [reflexivity |].
  destruct (String.eqb_spec ans "YES") as [_ | Hy]; [reflexivity |].
  destruct Hok; contradiction.
Qed.

Lemma list_disks_no_input w prompt : ~ In (EInput prompt) (trace (list_disks w)).
Proof.
  unfold list_disks, list_disks_unix, list_disks_mac, list_disks_windows,
    check_output.
  repeat match goal with
         | |- context [if ?b then _ else _] => destruct b; simpl
         | |- context [match spawn ?w ?c with _ => _ end] => destruct (spawn w c); simpl
         end;
    intuition discriminate.
Qed.

(** Claim C2.  In a run without [--yes] where the line typed by the
    operator is neither the target identifier nor [YES], no partitioning,
    formatting or raw-write command is ever started; and whenever the
    operator is prompted at all, the run ends in [sys.exit(1)] right after
    printing "Confirmation failed. Aborting.". *)
Theorem confirmation_refused_aborts w a ans :
  arg_yes a = false ->
  stdin_line w = Some ans ->
  ans <> target_of a ->
  ans <> "YES" ->
  never destructive (trace (main w a))
  /\ (In (EInput confirm_prompt) (trace (main w a)) ->
      main w a =
        ((confirm_events (target_of a) ++ [EPrint [PStr "Confirmation failed. Aborting."]])%list,
         aborted)).
Proof.
  intros Hyes Hin Ht Hy. rewrite main_steps.
  destruct (arg_list a).
  { split; [apply list_disks_never_destructive |].
    intros H. now apply list_disks_no_input in H. }
  destruct (negb (truthy (arg_target a))).
  { split; [reflexivity | intros []]. }
  unfold run_target.
  destruct (outcome (check_root w)) as [e | v] eqn:Hroot.
  - rewrite (bind_raises _ _ e Hroot), check_root_silent.
    split; [reflexivity | intros []].
  - rewrite (bind_returns _ _ v Hroot), check_root_silent. simpl app.
    assert (Hc : confirm_step w a =
                 ((confirm_events (target_of a) ++
                   [EPrint [PStr "Confirmation failed. Aborting."]])%list, aborted)).
    { unfold confirm_step. rewrite Hyes. simpl negb. cbv iota.
      now apply (confirm_refused w (target_of a) ans). }
    rewrite Hc. simpl. split; [reflexivity | reflexivity].
Qed.

Lemma confirmation_refused_aborts_witness :
  never destructive (trace (main (with_stdin linux_root (Some "no")) interactive_args))
  /\ main (with_stdin linux_root (Some "no")) interactive_args =
       ([ EPrint [PStr (nl ++ "!!! WARNING !!!")];
          EPrint [PStr "About to erase/modify device: /dev/sdb"];
          EPrint [PStr "This action is destructive and irreversible. Make sure you selected the correct device."];
          EInput confirm_prompt;
          EPrint [PStr "Confirmation failed. Aborting."] ],
        aborted).
Proof.
  destruct (confirmation_refused_aborts
              (with_stdin linux_root (Some "no")) interactive_args "no"
              eq_refl eq_refl) as [H1 H2];
    [discriminate | discriminate |].
  split; [exact H1 |].
  apply H2. simpl. do 3 right. left. reflexivity.
Defined.

(** ** Steps that return, steps that raise *)

Lemma seq_returns {A B} (m : M A) (k : M B) :
  returns m = true -> (m ;; k) = ((trace m ++ trace k)%list, outcome k).
Proof.
  unfold returns. destruct (outcome m) as [e | x] eqn:E; [discriminate |].
  intros _. now rewrite (bind_returns _ _ x E).
Qed.

Lemma ret_seq {A B} (x : A) (k : M B) : (ret x ;; k) = k.
Proof. now destruct k. Qed.

Lemma seq_raises {A B} (m : M A) (k : M B) e :
  outcome m = inl e -> (m ;; k) = (trace m, inl e).
Proof. apply bind_raises. Qed.

Lemma format_partition_raises w device fs_type e :
  outcome (format_partition_unix w device fs_type) = inl e ->
  (forall st cmd, e <> CalledProcessError st cmd)
  /\ exit_status (inl e : exn + pyval) = 1%Z.
Proof.
  unfold format_partition_unix, check_call, subprocess_call.
  repeat match goal with
         | |- context [if ?b then _ else _] => destruct b; simpl
         | |- context [match spawn ?w ?c with _ => _ end] => destruct (spawn w c); simpl
         end;
    intros [= <-]; split; (reflexivity || (intros; discriminate)).
Qed.

(** ** Delegate failures are printed *)

Lemma diagnosed_app w (a b : list event) :
  diagnosed w a -> diagnosed w b -> diagnosed w (a ++ b).
Proof.
  induction a as [| ev a IH]; simpl; [auto |].
  destruct ev; auto.
  intros [Hd Ha] Hb. split; [| auto].
  intros Hc st out Hs Hne.
  destruct (Hd Hc st out Hs Hne) as (label & rest' & ->).
  now exists label, (rest' ++ b)%list.
Qed.

Lemma diagnosed_split w (tr pre post : list event) cmd :
  diagnosed w tr -> tr = (pre ++ ESpawn cmd :: post)%list ->
  destructive cmd = true ->
  forall st out, spawn w cmd = Exited st out -> st <> 0%Z ->
  exists label rest',
    post = EPrint [PStr label; PExc (CalledProcessError st cmd)] :: rest'.
Proof.
  intros Hd ->. induction pre as [| ev pre IH]; simpl in Hd.
  - now destruct Hd.
  - apply IH. destruct ev; tauto.
Qed.

Lemma diagnosed_no_spawn w (tr : list event) : spawned tr = [] -> diagnosed w tr.
Proof.
  induction tr as [| ev tr IH]; simpl; [auto |].
  destruct ev; simpl; auto. discriminate.
Qed.

Lemma diagnosed_bind {A B} w (m : M A) (k : A -> M B) :
  diagnosed w (trace m) ->
  (forall x, outcome m = inr x -> diagnosed w (trace (k x))) ->
  diagnosed w (trace (bind m k)).
Proof.
  intros Hm Hk. rewrite trace_bind.
  destruct (outcome m) as [e | x] eqn:E; [exact Hm |].
  apply diagnosed_app; auto.
Qed.

(** One leaf of a case analysis on the fates of the children. *)
Ltac diagnosed_leaf :=
  simpl; repeat split;
  let Hd := fresh "Hd" in
  let Hs := fresh "Hs" in
  let Hne := fresh "Hne" in
  intros Hd ? ? Hs Hne;
  try discriminate Hd;
  match goal with
  | H : spawn _ _ = NotStarted _ |- _ => rewrite H in Hs; discriminate Hs
  | H : spawn _ _ = Exited _ _ |- _ =>
      rewrite H in Hs; injection Hs as <- <-;
      match goal with
      | Hz : (_ =? 0)%Z = true |- _ => apply Z.eqb_eq in Hz; contradiction
      | |- _ => do 2 eexists; reflexivity
      end
  end.

Ltac fates :=
  repeat match goal with
         | |- context [match path_stat ?w ?p with _ => _ end] =>
             destruct (path_stat w p) eqn:?; simpl
         | |- context [if ?b then _ else _] => destruct b eqn:?; simpl
         | |- context [match spawn ?w ?c with _ => _ end] =>
             destruct (spawn w c) eqn:?; simpl
         end.

Lemma create_partition_table_diagnosed w device table :
  diagnosed w (trace (create_partition_table_unix w device table)).
Proof.
  unfold create_partition_table_unix, check_call. fates; try exact I; diagnosed_leaf.
Qed.

Lemma format_partition_diagnosed w device fs_type :
  diagnosed w (trace (format_partition_unix w device fs_type)).
Proof.
  unfold format_partition_unix, check_call, subprocess_call.
  fates; try exact I; diagnosed_leaf.
Qed.

Lemma partition_step_diagnosed w a : diagnosed w (trace (partition_step w a)).
Proof.
  unfold partition_step.
  destruct (truthy (arg_parttable a)); [| exact I].
  destruct (in_tuple _ _).
  - apply diagnosed_bind; [exact I | intros _ _].
    apply diagnosed_bind; [apply create_partition_table_diagnosed | intros _ _].
    destruct (truthy (arg_format a)); [apply format_partition_diagnosed | exact I].
  - unfold write_file, check_call. fates; try exact I; diagnosed_leaf.
Qed.

Lemma image_step_diagnosed w a : diagnosed w (trace (image_step w a)).
Proof.
  unfold image_step, write_iso_unix, Path_exists, write_iso_windows, check_call.
  fates; try exact I; diagnosed_leaf.
Qed.

Lemma run_target_diagnosed w a : diagnosed w (trace (run_target w a)).
Proof.
  unfold run_target.
  apply diagnosed_bind;
    [apply diagnosed_no_spawn, check_root_spawns_nothing | intros _ _].
  apply diagnosed_bind;
    [apply diagnosed_no_spawn, confirm_step_spawns_nothing | intros _ _].
  apply diagnosed_bind; [apply partition_step_diagnosed | intros _ _].
  apply diagnosed_bind; [apply image_step_diagnosed | intros _ _].
  exact I.
Qed.

(** ** Exit status *)

Lemma loud_bind {A B} (m : M A) (k : A -> M B) :
  loud m -> (forall x, loud (k x)) -> loud (bind m k).
Proof.
  unfold loud. intros Hm Hk e. rewrite outcome_bind.
  destruct (outcome m) as [e' | x]; [intros [= ->]; auto | apply Hk].
Qed.

Ltac loud_leaves :=
  unfold loud; fates; intros ? [= <-]; (split; [| intros ? ?]); discriminate.

Lemma check_root_loud w : loud (check_root w).
Proof.
  unfold check_root. destruct (IsUserAnAdmin w) as [[|] |]; loud_leaves.
Qed.

Lemma confirm_step_loud w a : loud (confirm_step w a).
Proof.
  unfold confirm_step, confirm, input.
  destruct (stdin_line w); loud_leaves.
Qed.

Lemma create_partition_table_loud w device table :
  loud (create_partition_table_unix w device table).
Proof. unfold create_partition_table_unix, check_call. loud_leaves. Qed.

Lemma format_partition_loud w device fs_type :
  loud (format_partition_unix w device fs_type).
Proof.
  intros e He. destruct (format_partition_raises _ _ _ _ He) as [Hcpe ->].
  split; [discriminate | exact Hcpe].
Qed.

Lemma partition_step_loud w a : loud (partition_step w a).
Proof.
  unfold partition_step.
  destruct (truthy (arg_parttable a)); [| loud_leaves].
  destruct (in_tuple _ _).
  - apply loud_bind; [loud_leaves | intros _].
    apply loud_bind; [apply create_partition_table_loud | intros _].
    destruct (truthy (arg_format a)); [apply format_partition_loud | loud_leaves].
  - unfold write_file, check_call. loud_leaves.
Qed.

Lemma image_step_loud w a : loud (image_step w a).
Proof.
  unfold image_step, write_iso_unix, Path_exists, write_iso_windows, check_call. loud_leaves.
Qed.

Lemma seq_returned {A B} (m : M A) (k : M B) v :
  outcome (m ;; k) = inr v -> returns m = true /\ outcome k = inr v.
Proof.
  rewrite outcome_bind. unfold returns.
  destruct (outcome m); [discriminate | auto].
Qed.

Lemma run_target_loud w a : loud (run_target w a).
Proof.
  unfold run_target.
  apply loud_bind; [apply check_root_loud | intros _].
  apply loud_bind; [apply confirm_step_loud | intros _].
  apply loud_bind; [apply partition_step_loud | intros _].
  apply loud_bind; [apply image_step_loud | intros _].
  loud_leaves.
Qed.

Lemma run_target_returned w a v :
  outcome (run_target w a) = inr v ->
  returns (check_root w) = true /\ returns (confirm_step w a) = true
  /\ returns (partition_step w a) = true /\ returns (image_step w a) = true
  /\ exists pre, trace (run_target w a) = (pre ++ [done_msg])%list.
Proof.
  unfold run_target. intros H.
  apply seq_returned in H as [H1 H]. pose proof H as H'.
  apply seq_returned in H as [H2 H]. pose proof H as H''.
  apply seq_returned in H as [H3 H].
  apply seq_returned in H as [H4 H].
  repeat split; auto.
  rewrite (seq_returns _ _ H1), (seq_returns _ _ H2), (seq_returns _ _ H3),
    (seq_returns _ _ H4).
  unfold trace at 1. simpl fst.
  exists (trace (check_root w) ++ trace (confirm_step w a)
          ++ trace (partition_step w a) ++ trace (image_step w a))%list.
  now rewrite <- !app_assoc.
Qed.

Lemma list_disks_loud w : loud (list_disks w).
Proof.
  unfold list_disks, list_disks_unix, list_disks_mac, list_disks_windows,
    check_output.
  loud_leaves.
Qed.

Lemma main_loud w a : loud (main w a).
Proof.
  rewrite main_steps.
  destruct (arg_list a); [apply list_disks_loud |].
  destruct (negb (truthy (arg_target a))); [loud_leaves | apply run_target_loud].
Qed.

(** A delegate failure that the run survives: [dd] exits with status 1, the
    run prints the completion message and [main] returns, exit status 0. *)
Lemma dd_failure_exits_zero :
  main (with_spawn linux_root (failing "dd")) only_iso =
    ([ EPrint [PStr "Running:";
               PStr "dd if=linux.iso of=/dev/sdb bs=4M status=progress conv=fsync"];
       ESpawn ["dd"; "if=linux.iso"; "of=/dev/sdb"; "bs=4M"; "status=progress conv=fsync"];
       EPrint [PStr "dd failed:";
               PExc (CalledProcessError 1
                       ["dd"; "if=linux.iso"; "of=/dev/sdb"; "bs=4M";
                        "status=progress conv=fsync"])];
       done_msg ],
     inr PNone)
  /\ spawn (with_spawn linux_root (failing "dd"))
       ["dd"; "if=linux.iso"; "of=/dev/sdb"; "bs=4M"; "status=progress conv=fsync"]
     = Exited 1 ""
  /\ exit_status (outcome (main (with_spawn linux_root (failing "dd")) only_iso)) = 0%Z.
Proof. repeat split. Qed.

(** Claim C3, amended.  A run that is not a listing exits with status 0
    only if the privilege check, the confirmation, the partitioning block
    and the image block all returned without raising, and it then ends with
    the completion message.  The failure status of a delegate never ends a
    run ([main] never raises [CalledProcessError]); it is reported: in
    every run, the start of a destructive command that exited with a
    non-zero status is followed at once by a print of a label and of the
    [CalledProcessError] that carries the command and its status. *)
Theorem exit_zero_and_reported_failures w a :
  (arg_list a = false -> exit_status (outcome (main w a)) = 0%Z ->
   returns (check_root w) = true /\ returns (confirm_step w a) = true
   /\ returns (partition_step w a) = true /\ returns (image_step w a) = true
   /\ exists pre, trace (main w a) = (pre ++ [done_msg])%list)
  /\ (forall st cmd, outcome (main w a) <> inl (CalledProcessError st cmd))
  /\ (forall pre cmd post st out,
        trace (main w a) = (pre ++ ESpawn cmd :: post)%list ->
        destructive cmd = true ->
        spawn w cmd = Exited st out -> st <> 0%Z ->
        exists label rest,
          post = EPrint [PStr label; PExc (CalledProcessError st cmd)] :: rest).
Proof.
  split; [| split].
  - intros Hlist Hz. rewrite main_steps, Hlist in *.
    destruct (negb (truthy (arg_target a))); [discriminate Hz |].
    destruct (outcome (run_target w a)) as [e | v] eqn:E.
    + apply run_target_loud in E as [E _]. contradiction.
    + now apply run_target_returned in E.
  - intros st cmd E. apply main_loud in E as [_ E]. now apply (E st cmd).
  - intros pre cmd post st out Htr Hd Hs Hne.
    rewrite main_steps in Htr.
    destruct (arg_list a).
    + exfalso. pose proof (list_disks_never_destructive w) as Hn.
      rewrite Htr in Hn. apply never_app_inv in Hn as [_ Hn].
      unfold never in Hn. simpl in Hn. now rewrite Hd in Hn.
    + destruct (negb (truthy (arg_target a))).
      * now destruct pre.
      * eapply diagnosed_split; eauto using run_target_diagnosed.
Qed.

Lemma exit_zero_and_reported_failures_witness :
  returns (image_step (with_spawn linux_root (failing "dd")) only_iso) = true
  /\ exists label rest,
      [ EPrint [PStr "dd failed:";
                PExc (CalledProcessError 1
                        ["dd"; "if=linux.iso"; "of=/dev/sdb"; "bs=4M";
                         "status=progress conv=fsync"])];
        done_msg ]
      = EPrint [PStr label;
                PExc (CalledProcessError 1
                        ["dd"; "if=linux.iso"; "of=/dev/sdb"; "bs=4M";
                         "status=progress conv=fsync"])] :: rest.
Proof.
  destruct (exit_zero_and_reported_failures
              (with_spawn linux_root (failing "dd")) only_iso) as (H1 & _ & H2).
  split.
  - now destruct (H1 eq_refl eq_refl) as (_ & _ & _ & H & _).
  - apply (H2 [EPrint [PStr "Running:";
                       PStr "dd if=linux.iso of=/dev/sdb bs=4M status=progress conv=fsync"]]
              ["dd"; "if=linux.iso"; "of=/dev/sdb"; "bs=4M"; "status=progress conv=fsync"]
              _ 1%Z "" eq_refl eq_refl eq_refl).
    discriminate.
Defined.

(** ** A failing formatting step *)

(** The claim, as stated, at one run: parttable, format and image are
    requested, [mkfs.ext4] exits with status 1; yet [dd] is started
    afterwards, the completion message is printed and [main] returns (exit
    status 0). *)
Lemma mkfs_failure_does_not_stop_run :
  main (with_spawn linux_root (failing "mkfs.ext4")) full_args =
    ([ EPrint [PStr "Creating partition table gpt on /dev/sdb"];
       ESpawn ["sgdisk"; "--zap-all"; "/dev/sdb"];
       ESpawn ["parted"; "-s"; "/dev/sdb"; "mkpart"; "primary"; "ext4"; "0%"; "100%"];
       ESpawn ["sleep"; "1"];
       ESpawn ["mkfs.ext4"; "/dev/sdb1"];
       EPrint [PStr "mkfs failed:"; PExc (CalledProcessError 1 ["mkfs.ext4"; "/dev/sdb1"])];
       EPrint [PStr "Running:";
               PStr "dd if=linux.iso of=/dev/sdb bs=4M status=progress conv=fsync"];
       ESpawn ["dd"; "if=linux.iso"; "of=/dev/sdb"; "bs=4M"; "status=progress conv=fsync"];
       done_msg ],
     inr PNone)
  /\ exit_status (outcome (main (with_spawn linux_root (failing "mkfs.ext4")) full_args)) = 0%Z
  /\ ~ never is_dd (trace (main (with_spawn linux_root (failing "mkfs.ext4")) full_args)).
Proof.
  split; [reflexivity |]. split; [reflexivity |].
  unfold never. vm_compute. discriminate.
Qed.

(** The formatting step decides how a run on Linux or macOS that reached
    it goes on. *)
Lemma formatting_step_outcome w a :
  arg_list a = false ->
  truthy (arg_target a) = true ->
  returns (check_root w) = true ->
  returns (confirm_step w a) = true ->
  in_tuple (platform_system w) ["Linux"; "Darwin"] = true ->
  truthy (arg_parttable a) = true ->
  truthy (arg_format a) = true ->
  truthy (arg_iso a) = true ->
  returns (create_partition_table_unix w (target_of a) (fmt (arg_parttable a))) = true ->
  let formatting_step := format_partition_unix w (target_of a) (fmt (arg_format a)) in
  match outcome formatting_step with
  | inl e =>
      (forall st cmd, e <> CalledProcessError st cmd)
      /\ main w a = ((before_formatting w a ++ trace formatting_step)%list, inl e)
      /\ exit_status (outcome (main w a)) = 1%Z
      /\ never is_dd (trace (main w a))
  | inr _ =>
      main w a =
        ((before_formatting w a ++ trace formatting_step
          ++ trace (after_partitioning w a))%list,
         outcome (after_partitioning w a))
  end.
Proof.
  intros Hlist Htarget Hroot Hconfirm Hunix Hpt Hfmt Hiso Hprov formatting_step.
  assert (Hmain : main w a =
                  ((trace (confirm_step w a) ++ trace (partition_step w a ;; after_partitioning w a))%list,
                   outcome (partition_step w a ;; after_partitioning w a))).
  { rewrite main_steps, Hlist, Htarget. simpl negb. cbv iota. unfold run_target.
    rewrite (seq_returns (check_root w)) by exact Hroot.
    rewrite check_root_silent. simpl app.
    rewrite (seq_returns (confirm_step w a)) by exact Hconfirm.
    reflexivity. }
  assert (Hpart : partition_step w a =
                  ((EPrint [PStr ("Creating partition table " ++ fmt (arg_parttable a)
                                  ++ " on " ++ target_of a)]
                    :: trace (create_partition_table_unix w (target_of a) (fmt (arg_parttable a)))
                    ++ trace formatting_step)%list,
                   outcome formatting_step)).
  { unfold partition_step. rewrite Hpt, Hunix, Hfmt.
    unfold print, emit at 1.
    rewrite (seq_returns (create_partition_table_unix _ _ _)) by exact Hprov.
    reflexivity. }
  destruct (outcome formatting_step) as [e | v] eqn:Hout.
  - destruct (format_partition_raises _ _ _ _ Hout) as [Hcpe Hstatus].
    assert (Hrun : main w a =
                   ((before_formatting w a ++ trace formatting_step)%list, inl e)).
    { rewrite Hmain.
      rewrite (seq_raises (partition_step w a) _ e) by (now rewrite Hpart).
      rewrite Hpart. unfold before_formatting, trace, outcome. simpl.
      now rewrite <- app_assoc. }
    repeat split; [exact Hcpe | exact Hrun | now rewrite Hrun |].
    rewrite Hrun. unfold trace at 1. simpl fst. unfold before_formatting.
    repeat apply never_app.
    + apply never_no_spawn, confirm_step_spawns_nothing.
    + apply (never_app is_dd [_]); [reflexivity |].
      apply create_partition_table_never_dd.
    + apply format_partition_never_dd.
  - rewrite Hmain.
    rewrite (seq_returns (partition_step w a))
      by (unfold returns; now rewrite Hpart).
    rewrite Hpart. unfold before_formatting, trace, outcome. simpl.
    now rewrite <- !app_assoc.
Qed.

Lemma run_target_plan w a : run_target w a = in_sequence (plan w a).
Proof. reflexivity. Qed.

Lemma in_sequence_raises pre s post e :
  forallb returns pre = true -> outcome s = inl e ->
  in_sequence (pre ++ s :: post) = ((concat (map trace pre) ++ trace s)%list, inl e).
Proof.
  intros Hpre Hs. induction pre as [| m pre IH]; simpl in *.
  - now apply seq_raises.
  - apply andb_prop in Hpre as [Hm Hpre].
    rewrite (seq_returns _ _ Hm), (IH Hpre). simpl.
    now rewrite app_assoc.
Qed.

(** The formatting step raises exactly for the causes of
    [formatting_gives_up]; in particular a [parted mkpart] or an mkfs that
    exits with a failure status does not make it raise. *)
Lemma format_partition_returns_iff w device fs_type :
  returns (format_partition_unix w device fs_type)
  = negb (formatting_gives_up w device fs_type).
Proof.
  unfold format_partition_unix, formatting_gives_up, mkfs_cmd, first_partition,
    supported_fs, started, succeeded, check_call, subprocess_call, returns, mkpart_cmd.
  remember (in_tuple fs_type ["ext4"; "ext3"; "ext2"]) as ext eqn:Hext.
  remember (in_tuple fs_type ["vfat"; "fat32"]) as fat eqn:Hfat.
  clear Hext Hfat.
  destruct (which w "parted"); simpl; [| reflexivity].
  destruct (spawn w ["parted"; "-s"; device; "mkpart"; "primary"; fs_type; "0%"; "100%"])
    as [st out | msg]; simpl; [| reflexivity].
  destruct (st =? 0)%Z; simpl; [| reflexivity].
  unfold in_tuple. simpl existsb.
  destruct (String.eqb_spec (platform_system w) "Linux") as [HL | HL];
    destruct (String.eqb_spec (platform_system w) "Darwin") as [HD | HD];
    destruct (String.eqb_spec (platform_system w) "Windows") as [HW | HW];
    try (rewrite HL in *; discriminate);
    try (rewrite HD in *; discriminate);
    simpl; try reflexivity.
  all: destruct (spawn w ["sleep"; "1"]) as [st1 out1 | msg1]; simpl;
    [| reflexivity].
  all: destruct ext; simpl;
    [| destruct fat; simpl; [| destruct (fs_type =? "ntfs"); simpl; [| reflexivity]]].
  all: match goal with
       | |- context [spawn ?w0 ?c] =>
           destruct (spawn w0 c) as [st2 out2 | msg2]; simpl;
           [destruct (st2 =? 0)%Z |]; reflexivity
       end.
Qed.

(** Claim C1, amended.  In a run with a target, when a step of the plan
    (privilege check, confirmation, partitioning/formatting block, image
    block) raises, the run ends there: its events are those of the steps
    before and of that step, no later step is attempted, the run ends with
    that exception and a non-zero exit status.  The exception is never the
    failure status of a delegate ([CalledProcessError]).  In particular, in
    a run on Linux or macOS with parttable, format and image requested that
    got past the privilege check, the confirmation and the provisioning,
    the formatting step raises exactly when parted is not installed, when
    [parted mkpart], the sleep or mkfs cannot be started, or when mkpart
    exited with status 0 and the platform or the filesystem kind is not
    supported; the run then ends with that exception right after the events
    of the formatting step, with exit status 1, and [dd] is never started.
    In every other case, a [parted mkpart] or an mkfs that exits with a
    failure status included, the formatting step returns and the run goes
    on with the image step and the completion message. *)
Theorem raising_step_stops_run w a :
  arg_list a = false ->
  truthy (arg_target a) = true ->
  (forall pre s post e,
     plan w a = (pre ++ s :: post)%list ->
     forallb returns pre = true ->
     outcome s = inl e ->
     main w a = ((concat (map trace pre) ++ trace s)%list, inl e)
     /\ exit_status (outcome (main w a)) <> 0%Z
     /\ forall st cmd, e <> CalledProcessError st cmd)
  /\ (returns (check_root w) = true ->
      returns (confirm_step w a) = true ->
      in_tuple (platform_system w) ["Linux"; "Darwin"] = true ->
      truthy (arg_parttable a) = true ->
      truthy (arg_format a) = true ->
      truthy (arg_iso a) = true ->
      returns (create_partition_table_unix w (target_of a) (fmt (arg_parttable a))) = true ->
      let formatting_step := format_partition_unix w (target_of a) (fmt (arg_format a)) in
      if formatting_gives_up w (target_of a) (fmt (arg_format a)) then
        exists e,
          outcome formatting_step = inl e
          /\ (forall st cmd, e <> CalledProcessError st cmd)
          /\ main w a = ((before_formatting w a ++ trace formatting_step)%list, inl e)
          /\ exit_status (outcome (main w a)) = 1%Z
          /\ never is_dd (trace (main w a))
      else
        returns formatting_step = true
        /\ main w a =
           ((before_formatting w a ++ trace formatting_step
             ++ trace (after_partitioning w a))%list,
            outcome (after_partitioning w a))).
Proof.
  intros Hlist Htarget. split.
  - intros pre s post e Hplan Hpre Hs.
    assert (Hmain : main w a = ((concat (map trace pre) ++ trace s)%list, inl e)).
    { rewrite main_steps, Hlist, Htarget. simpl negb. cbv iota.
      rewrite run_target_plan, Hplan. now apply in_sequence_raises. }
    split; [exact Hmain |].
    rewrite Hmain. apply (main_loud w a). now rewrite Hmain.
  - intros Hroot Hconfirm Hunix Hpt Hfmt Hiso Hprov formatting_step.
    pose proof (formatting_step_outcome w a Hlist Htarget Hroot Hconfirm Hunix Hpt
                  Hfmt Hiso Hprov) as Hout.
    cbv zeta in Hout. fold formatting_step in Hout.
    pose proof (format_partition_returns_iff w (target_of a) (fmt (arg_format a)))
      as Hret.
    fold formatting_step in Hret. unfold returns in *.
    destruct (formatting_gives_up w (target_of a) (fmt (arg_format a)));
      destruct (outcome formatting_step) as [e | v]; try discriminate Hret.
    + exists e. now split.
    + split; [reflexivity | exact Hout].
Qed.

Lemma raising_step_stops_run_witness :
  (main (with_which linux_root (fun name => name =? "sgdisk")) full_args =
     ([ EPrint [PStr "Creating partition table gpt on /dev/sdb"];
        ESpawn ["sgdisk"; "--zap-all"; "/dev/sdb"] ],
      inl (SystemExit (ExitMsg "parted not available. Install parted and retry."))))
  /\ (exists e,
        main (with_spawn linux_root (unstartable "mkfs.ext4")) full_args =
          ([ EPrint [PStr "Creating partition table gpt on /dev/sdb"];
             ESpawn ["sgdisk"; "--zap-all"; "/dev/sdb"];
             ESpawn (mkpart_cmd "/dev/sdb" "ext4");
             ESpawn ["sleep"; "1"];
             ESpawn ["mkfs.ext4"; "/dev/sdb1"] ],
           inl e)
        /\ outcome (format_partition_unix (with_spawn linux_root (unstartable "mkfs.ext4"))
                      "/dev/sdb" "ext4") = inl e
        /\ exit_status
             (outcome (main (with_spawn linux_root (unstartable "mkfs.ext4")) full_args))
           = 1%Z
        /\ never is_dd
             (trace (main (with_spawn linux_root (unstartable "mkfs.ext4")) full_args)))
  /\ returns (format_partition_unix (with_spawn linux_root (failing "mkfs.ext4"))
                "/dev/sdb" "ext4") = true.
Proof.
  split; [| split].
  - destruct (raising_step_stops_run
                (with_which linux_root (fun name => name =? "sgdisk")) full_args
                eq_refl eq_refl) as [Hgen _].
    apply (Hgen [check_root (with_which linux_root (fun name => name =? "sgdisk"));
                 confirm_step (with_which linux_root (fun name => name =? "sgdisk")) full_args]
                (partition_step (with_which linux_root (fun name => name =? "sgdisk")) full_args)
                _ _ eq_refl eq_refl eq_refl).
  - destruct (raising_step_stops_run
                (with_spawn linux_root (unstartable "mkfs.ext4")) full_args
                eq_refl eq_refl) as [_ Hfmt].
    pose proof (Hfmt eq_refl eq_refl eq_refl eq_refl eq_refl eq_refl eq_refl) as H.
    cbv zeta in H.
    change (formatting_gives_up (with_spawn linux_root (unstartable "mkfs.ext4"))
              (target_of full_args) (fmt (arg_format full_args))) with true in H.
    cbv iota in H.
    destruct H as (e & H0 & _ & H1 & H2 & H3).
    exists e. split; [exact H1 |]. split; [exact H0 |]. split; [exact H2 | exact H3].
  - destruct (raising_step_stops_run
                (with_spawn linux_root (failing "mkfs.ext4")) full_args
                eq_refl eq_refl) as [_ Hfmt].
    pose proof (Hfmt eq_refl eq_refl eq_refl eq_refl eq_refl eq_refl eq_refl) as H.
    cbv zeta in H.
    change (formatting_gives_up (with_spawn linux_root (failing "mkfs.ext4"))
              (target_of full_args) (fmt (arg_format full_args))) with false in H.
    cbv iota in H. exact (proj1 H).
Defined.

(** ** Provisioning *)

Lemma sgdisk_for_any_other_table w device table :
  which w "sgdisk" = true -> (table =? "gpt") = false ->
  spawned (trace (create_partition_table_unix w device table))
  = [["sgdisk"; "--mbrtogpt=1"; device]]
  /\ forall a, outcome (create_partition_table_unix w device table) <> inl (SystemExit a).
Proof.
  intros Hw Ht. unfold create_partition_table_unix, check_call. rewrite Hw, Ht.
  fates; split; try reflexivity; discriminate.
Qed.

(** Claim C4.  With sgdisk present and parted absent, a request for an mbr
    table starts [sgdisk --mbrtogpt=1 <device>], the MBR-to-GPT conversion,
    and returns normally: nothing is raised and nothing is printed. *)
Theorem mbr_request_runs_gpt_conversion :
  create_partition_table_unix
    (with_which linux_root (fun name => name =? "sgdisk")) "/dev/sdb" "mbr"
  = ([ESpawn ["sgdisk"; "--mbrtogpt=1"; "/dev/sdb"]], inr PNone).
Proof. reflexivity. Qed.

(** ** Formatting *)

(** The claim, as stated, at one input: for the kind btrfs the partition
    is created by [parted mkpart] before the kind is rejected. *)
Lemma unsupported_filesystem_after_mkpart :
  supported_fs "btrfs" = false
  /\ format_partition_unix linux_root "/dev/sdb" "btrfs"
     = ([ ESpawn ["parted"; "-s"; "/dev/sdb"; "mkpart"; "primary"; "btrfs"; "0%"; "100%"];
          ESpawn ["sleep"; "1"] ],
        inl (SystemExit (ExitMsg "Unsupported filesystem: btrfs")))
  /\ ~ never is_mkpart (trace (format_partition_unix linux_root "/dev/sdb" "btrfs")).
Proof.
  split; [reflexivity |]. split; [reflexivity |].
  unfold never. vm_compute. discriminate.
Qed.

(** Claim C5, amended.  For a filesystem kind outside the supported set,
    [format_partition_unix] never starts an mkfs command.  It raises
    [SystemExit] with "Unsupported filesystem: <kind>" only after
    [parted mkpart] was started with that kind and exited with status 0
    (the trace is then the mkpart and the sleep commands); and it does raise
    it whenever parted is present, mkpart exits with status 0, the platform
    is Linux or macOS and the sleep child could be started. *)
Theorem unsupported_filesystem_no_mkfs w device fs_type :
  supported_fs fs_type = false ->
  let r := format_partition_unix w device fs_type in
  never is_mkfs (trace r)
  /\ (outcome r = unsupported_filesystem fs_type ->
      trace r = [ESpawn (mkpart_cmd device fs_type); ESpawn ["sleep"; "1"]]
      /\ exists out, spawn w (mkpart_cmd device fs_type) = Exited 0 out)
  /\ (which w "parted" = true ->
      (exists out, spawn w (mkpart_cmd device fs_type) = Exited 0 out) ->
      in_tuple (platform_system w) ["Linux"; "Darwin"] = true ->
      (exists st out, spawn w ["sleep"; "1"] = Exited st out) ->
      outcome r = unsupported_filesystem fs_type).
Proof.
  intros Hfs r. subst r. unfold supported_fs in Hfs.
  apply orb_false_elim in Hfs as [Hfs Hntfs].
  apply orb_false_elim in Hfs as [Hext Hfat].
  unfold format_partition_unix, check_call, subprocess_call, unsupported_filesystem.
  fold (mkpart_cmd device fs_type).
  rewrite Hext, Hfat, Hntfs.
  destruct (which w "parted") eqn:Hw; simpl.
  2:{ repeat split; try discriminate. }
  destruct (spawn w (mkpart_cmd device fs_type)) as [st out | msg] eqn:Hmk; simpl.
  2:{ repeat split; try discriminate. intros _ [? [=]]. }
  destruct (Z.eqb_spec st 0) as [-> | Hst]; simpl.
  2:{ repeat split; try discriminate. intros _ [? [= ? ?]]. contradiction. }
  unfold in_tuple; simpl existsb.
  destruct (String.eqb_spec (platform_system w) "Linux") as [HL | HL];
    destruct (String.eqb_spec (platform_system w) "Darwin") as [HD | HD];
    destruct (String.eqb_spec (platform_system w) "Windows") as [HW | HW];
    try (rewrite HL in *; discriminate);
    try (rewrite HD in *; discriminate);
    simpl; destruct (spawn w ["sleep"; "1"]) as [st' out' | msg'] eqn:Hsl; simpl.
  all: repeat split; try discriminate; try reflexivity; eauto.
  all: intros _ _ _ (? & ? & [=]).
Qed.

Lemma unsupported_filesystem_no_mkfs_witness :
  never is_mkfs (trace (format_partition_unix linux_root "/dev/sdb" "btrfs"))
  /\ outcome (format_partition_unix linux_root "/dev/sdb" "btrfs")
     = unsupported_filesystem "btrfs".
Proof.
  destruct (unsupported_filesystem_no_mkfs linux_root "/dev/sdb" "btrfs" eq_refl)
    as (H1 & _ & H2).
  split; [exact H1 |].
  apply H2; [reflexivity | now exists "" | reflexivity | now exists 0%Z, ""].
Defined.

(** ** Skipped steps *)

Lemma dd_not_partitioning cmd : is_dd cmd = true -> partitioning cmd = false.
Proof.
  unfold is_dd, partitioning, is_sgdisk, is_mklabel, is_diskpart.
  intros H%String.eqb_eq. now rewrite H.
Qed.

Lemma dd_not_formatting cmd : is_dd cmd = true -> formatting cmd = false.
Proof.
  unfold is_dd, formatting, is_mkpart, is_mkfs, is_diskpart.
  intros H%String.eqb_eq. now rewrite H.
Qed.

Lemma partitioning_destructive cmd : partitioning cmd = true -> destructive cmd = true.
Proof. unfold destructive. now intros ->. Qed.

Lemma formatting_destructive cmd : formatting cmd = true -> destructive cmd = true.
Proof. unfold destructive. intros ->. now rewrite orb_true_r. Qed.

(** A run never starts a command of a class [p] of destructive commands
    that neither its partitioning block nor its image block starts. *)
Lemma main_never p w a :
  (forall cmd, p cmd = true -> destructive cmd = true) ->
  never p (trace (partition_step w a)) ->
  never p (trace (image_step w a)) ->
  never p (trace (main w a)).
Proof.
  intros Hp Hpart Himage. rewrite main_steps.
  destruct (arg_list a).
  { apply (never_weaken destructive); [exact Hp | apply list_disks_never_destructive]. }
  destruct (negb (truthy (arg_target a))); [reflexivity |].
  unfold run_target.
  apply never_bind; [apply never_no_spawn, check_root_spawns_nothing | intros _ _].
  apply never_bind; [apply never_no_spawn, confirm_step_spawns_nothing | intros _ _].
  apply never_bind; [exact Hpart | intros _ _].
  apply never_bind; [exact Himage | intros _ _]. reflexivity.
Qed.

(** Without [--parttable] no partitioning command is started, on any
    platform. *)
Lemma no_parttable_no_partitioning w a :
  truthy (arg_parttable a) = false -> never partitioning (trace (main w a)).
Proof.
  intros Hpt. apply main_never.
  - apply partitioning_destructive.
  - unfold partition_step. now rewrite Hpt.
  - apply image_step_only_dd, dd_not_partitioning.
Qed.

(** Without [--format] no partition is created and no mkfs is started,
    where the platform is not Windows. *)
Lemma no_format_no_formatting_unix w a :
  truthy (arg_format a) = false -> platform_system w <> "Windows" ->
  never formatting (trace (main w a)).
Proof.
  intros Hfmt Hsys. apply main_never.
  - apply formatting_destructive.
  - unfold partition_step. rewrite Hfmt.
    destruct (String.eqb_spec (platform_system w) "Windows") as [HW | _];
      [contradiction |].
    unfold create_partition_table_unix. never_run.
  - apply image_step_only_dd, dd_not_formatting.
Qed.

(** Claim C6.  On Windows, a run with [--parttable gpt] and no [--format]
    writes a diskpart script that creates a partition and formats it with
    the filesystem [None], and starts [diskpart] on it: a formatting
    delegate is started although the format option is absent. *)
Theorem windows_formats_without_format_option :
  arg_format windows_gpt_no_format = None
  /\ main (windows (Some true)) windows_gpt_no_format =
       ([ EPrint [PStr "Windows partitioning/formatting path"];
          EPrint [PStr "Running diskpart script (requires admin)"];
          EWrite "diskpart_script.txt"
            ("select disk 1" ++ nl ++ "clean" ++ nl ++ "convert gpt" ++ nl ++
             "create partition primary" ++ nl ++ "format fs=None quick" ++ nl ++
             "assign" ++ nl ++ "exit" ++ nl);
          ESpawn ["diskpart"; "/s"; "diskpart_script.txt"];
          done_msg ],
        inr PNone)
  /\ ~ never formatting (trace (main (windows (Some true)) windows_gpt_no_format)).
Proof.
  split; [reflexivity |]. split; [reflexivity |].
  unfold never. vm_compute. discriminate.
Qed.

(** ** The privilege check *)

(** The claim, as stated, at one run: on Windows, when the administrator
    check itself raises, nothing has verified the privilege, and the run
    goes on to start [diskpart]. *)
Lemma unverified_windows_run_proceeds :
  verified (windows None) = false
  /\ outcome (check_root (windows None)) = inr PNone
  /\ spawned (trace (main (windows None) windows_gpt_no_format))
     = [["diskpart"; "/s"; "diskpart_script.txt"]]
  /\ ~ never destructive (trace (main (windows None) windows_gpt_no_format)).
Proof.
  repeat split. unfold never. vm_compute. discriminate.
Qed.

Lemma check_root_denied w :
  denied w = true ->
  exists msg, check_root w = ([], inl (SystemExit (ExitMsg msg))).
Proof.
  unfold denied, check_root.
  destruct (in_tuple _ _).
  - intros ->. eexists. reflexivity.
  - destruct (_ =? _); [| discriminate].
    destruct (IsUserAnAdmin w) as [admin |]; [| discriminate].
    intros ->. eexists. reflexivity.
Qed.

Lemma check_root_not_denied w :
  denied w = false -> check_root w = ([], inr PNone).
Proof.
  unfold denied, check_root.
  destruct (in_tuple _ _).
  - now intros ->.
  - destruct (_ =? _); [| reflexivity].
    destruct (IsUserAnAdmin w) as [admin |]; [| reflexivity].
    now intros ->.
Qed.

(** Claim C8, amended.  The privilege check is: on Linux and macOS the
    effective user id is 0; on Windows [IsUserAnAdmin], when it answers,
    answers yes.  In a run with a target, when the check reports that the
    process is not privileged, the run ends in the [SystemExit] of
    [check_root] before anything is printed, asked or started (the trace is
    empty), with exit status 1.  In every other case, which includes a
    Windows check that itself raises and any other platform, [check_root]
    returns and the run goes on with the confirmation and the plan. *)
Theorem denied_privilege_stops_run w a :
  arg_list a = false ->
  truthy (arg_target a) = true ->
  if denied w then
    (exists msg, main w a = ([], inl (SystemExit (ExitMsg msg))))
    /\ exit_status (outcome (main w a)) = 1%Z
  else
    check_root w = ([], inr PNone)
    /\ main w a =
       (confirm_step w a ;; partition_step w a ;; image_step w a ;; emit done_msg).
Proof.
  intros Hlist Htarget. rewrite main_steps, Hlist, Htarget. simpl negb. cbv iota.
  unfold run_target.
  destruct (denied w) eqn:Hden.
  - destruct (check_root_denied w Hden) as [msg Hroot].
    rewrite Hroot. simpl. eauto.
  - rewrite (check_root_not_denied w Hden).
    split; [reflexivity | apply ret_seq].
Qed.

Lemma denied_privilege_stops_run_witness :
  (exists msg,
     main (windows (Some false)) windows_gpt_no_format
     = ([], inl (SystemExit (ExitMsg msg))))
  /\ exit_status (outcome (main (windows (Some false)) windows_gpt_no_format)) = 1%Z.
Proof.
  exact (denied_privilege_stops_run (windows (Some false)) windows_gpt_no_format
           eq_refl eq_refl).
Defined.

(** ** The raw write *)

(** Whatever [dd] does, [write_iso_unix] gives back [None] and its events
    are the command line it prints, the start of [dd] and, when [dd] exits
    with a failure status, the diagnostic: nothing it returns or prints is
    a number of bytes. *)
Lemma write_iso_unix_reports_no_count w device iso_path :
  (forall v, outcome (write_iso_unix w device iso_path) = inr v -> v = PNone)
  /\ Forall (fun ev =>
               ev = EPrint [PStr "Running:"; PStr (join_sp (dd_cmd device iso_path))]
               \/ ev = ESpawn (dd_cmd device iso_path)
               \/ exists st,
                    ev = EPrint [PStr "dd failed:";
                                 PExc (CalledProcessError st (dd_cmd device iso_path))])
            (trace (write_iso_unix w device iso_path)).
Proof.
  unfold write_iso_unix, Path_exists, check_call, dd_cmd.
  fates; (split; [intros v H; now inversion H |]);
    repeat (apply Forall_cons || apply Forall_nil); eauto 6.
Qed.


(** ** A format request without a partition table *)

Lemma partition_step_skipped w a :
  truthy (arg_parttable a) = false -> partition_step w a = ret PNone.
Proof. intros Hpt. unfold partition_step. now rewrite Hpt. Qed.

(** Claim C10.  In a run with no [--parttable], a [--format]
    option changes nothing: the run is, event for event and in its
    outcome, the run of the same command line without [--format], and no
    partition-creating or mkfs command is started.  The run completes
    (prints the completion message last and returns) whenever it is not a
    listing, a target is given, and the privilege check, the confirmation
    and the image block return. *)
Theorem format_without_parttable_ignored w a :
  truthy (arg_parttable a) = false ->
  main w a = main w (without_format a)
  /\ never formatting (trace (main w a))
  /\ (arg_list a = false ->
      truthy (arg_target a) = true ->
      returns (check_root w) = true ->
      returns (confirm_step w a) = true ->
      returns (image_step w a) = true ->
      main w a =
        ((trace (confirm_step w a) ++ trace (image_step w a) ++ [done_msg])%list,
         inr PNone)).
Proof.
  intros Hpt. split; [| split].
  - rewrite !main_steps. unfold run_target.
    rewrite (partition_step_skipped w a Hpt).
    rewrite (partition_step_skipped w (without_format a)) by exact Hpt.
    reflexivity.
  - apply main_never.
    + apply formatting_destructive.
    + now rewrite (partition_step_skipped w a Hpt).
    + apply image_step_only_dd, dd_not_formatting.
  - intros Hlist Htarget Hroot Hconfirm Himage.
    rewrite main_steps, Hlist, Htarget. simpl negb. cbv iota. unfold run_target.
    rewrite (partition_step_skipped w a Hpt), ret_seq.
    rewrite (seq_returns (image_step w a)) by exact Himage.
    rewrite (seq_returns (confirm_step w a)) by exact Hconfirm.
    rewrite (seq_returns (check_root w)) by exact Hroot.
    now rewrite check_root_silent.
Qed.

Lemma format_without_parttable_ignored_witness :
  main linux_root (format_only (Some "linux.iso"))
  = main linux_root (without_format (format_only (Some "linux.iso")))
  /\ never formatting (trace (main linux_root (format_only (Some "linux.iso"))))
  /\ main linux_root (format_only (Some "linux.iso")) =
       ([ EPrint [PStr "Running:";
                  PStr "dd if=linux.iso of=/dev/sdb bs=4M status=progress conv=fsync"];
          ESpawn (dd_cmd "/dev/sdb" "linux.iso");
          done_msg ],
        inr PNone).
Proof.
  destruct (format_without_parttable_ignored linux_root (format_only (Some "linux.iso"))
              eq_refl) as (H1 & H2 & H3).
  split; [exact H1 |]. split; [exact H2 |].
  exact (H3 eq_refl eq_refl eq_refl eq_refl eq_refl).
Defined.

(** * Further properties *)

(** ** Listing *)

Lemma list_disks_returns w : outcome (list_disks w) = inr PNone.
Proof.
  unfold list_disks, list_disks_unix, list_disks_mac, list_disks_windows,
    check_output.
  fates; reflexivity.
Qed.

(** X1.  With [--list] the run only lists.  Whatever the other options,
    the privilege of the process and the fate of the listing tools, [main]
    returns (exit status 0), asks the operator nothing and starts no
    destructive command; two command lines with [--list] give the same
    run. *)
Theorem list_mode_always_succeeds w a :
  arg_list a = true ->
  outcome (main w a) = inr PNone
  /\ exit_status (outcome (main w a)) = 0%Z
  /\ never destructive (trace (main w a))
  /\ (forall prompt, ~ In (EInput prompt) (trace (main w a)))
  /\ (forall a', arg_list a' = true -> main w a' = main w a).
Proof.
  intros Hlist. rewrite main_steps, Hlist.
  repeat split.
  - apply list_disks_returns.
  - now rewrite list_disks_returns.
  - apply list_disks_never_destructive.
  - intros prompt. apply list_disks_no_input.
  - intros a' Hlist'. now rewrite main_steps, Hlist'.
Qed.

Lemma list_mode_always_succeeds_witness :
  exit_status
    (outcome (main (with_spawn freebsd (fun _ => NotStarted "no such file")) list_args))
  = 0%Z
  /\ never destructive
       (trace (main (with_spawn freebsd (fun _ => NotStarted "no such file")) list_args)).
Proof.
  destruct (list_mode_always_succeeds
              (with_spawn freebsd (fun _ => NotStarted "no such file")) list_args eq_refl)
    as (_ & H1 & H2 & _).
  split; [exact H1 | exact H2].
Defined.



(** ** The device a run touches *)












(** ** The place of the raw write in a run *)

Lemma spawned_seq {A B} (m : M A) (k : M B) :
  spawned (trace (m ;; k))
  = (spawned (trace m) ++ if returns m then spawned (trace k) else [])%list.
Proof.
  rewrite trace_bind. unfold returns.
  destruct (outcome m); [now rewrite app_nil_r | apply spawned_app].
Qed.

Lemma image_step_spawns w a :
  spawned (trace (image_step w a)) = []
  \/ spawned (trace (image_step w a)) = [dd_cmd (target_of a) (fmt (arg_iso a))].
Proof.
  unfold image_step, write_iso_unix, Path_exists, write_iso_windows, check_call, dd_cmd.
  fates; auto.
Qed.

Lemma only_at_the_end {X} (p : X -> bool) (front back pre post : list X) c x :
  existsb p front = false ->
  back = [] \/ back = [c] ->
  (front ++ back = pre ++ x :: post)%list ->
  p x = true ->
  post = [] /\ x = c /\ pre = front.
Proof.
  intros Hfront Hback. revert pre.
  induction front as [| y front IH]; intros pre Heq Hx; simpl in *.
  - destruct Hback as [-> | ->].
    + now destruct pre.
    + destruct pre as [| z pre]; simpl in Heq.
      * now injection Heq as <- <-.
      * injection Heq as _ Heq. now destruct pre.
  - apply orb_false_elim in Hfront as [Hy Hfront].
    destruct pre as [| z pre]; simpl in Heq; injection Heq as <- Heq.
    + congruence.
    + destruct (IH Hfront pre Heq Hx) as (-> & -> & ->). auto.
Qed.

Lemma main_spawns_dd_last w a :
  exists front back,
    spawned (trace (main w a)) = (front ++ back)%list
    /\ existsb is_dd front = false
    /\ (back = [] \/ back = [dd_cmd (target_of a) (fmt (arg_iso a))]).
Proof.
  rewrite main_steps.
  destruct (arg_list a).
  { exists (spawned (trace (list_disks w))), []. rewrite app_nil_r.
    repeat split; auto.
    apply (never_weaken destructive); [apply dd_destructive |].
    apply list_disks_never_destructive. }
  destruct (negb (truthy (arg_target a))).
  { exists [], []. auto. }
  unfold run_target. rewrite !spawned_seq.
  rewrite check_root_spawns_nothing, confirm_step_spawns_nothing. simpl app.
  pose proof (partition_step_never_dd w a) as Hpart.
  pose proof (image_step_spawns w a) as Himage.
  destruct (returns (check_root w)); [| exists [], []; auto].
  destruct (returns (confirm_step w a)); [| exists [], []; auto].
  destruct (returns (partition_step w a)).
  - exists (spawned (trace (partition_step w a))), (spawned (trace (image_step w a))).
    repeat split; auto.
    destruct (returns (image_step w a)); now rewrite app_nil_r.
  - exists (spawned (trace (partition_step w a))), []. auto.
Qed.

(** X4.  The raw write comes last and at most once: if a run starts a [dd]
    command, it is [dd if=<iso> of=<target> bs=4M status=progress
    conv=fsync], it is the last command the run starts, and no command
    before it is a [dd]. *)
Theorem dd_is_last_and_once w a pre cmd post :
  spawned (trace (main w a)) = (pre ++ cmd :: post)%list ->
  is_dd cmd = true ->
  post = []
  /\ cmd = dd_cmd (target_of a) (fmt (arg_iso a))
  /\ existsb is_dd pre = false.
Proof.
  intros Hsp Hdd.
  destruct (main_spawns_dd_last w a) as (front & back & Heq & Hfront & Hback).
  rewrite Heq in Hsp.
  destruct (only_at_the_end is_dd front back pre post _ cmd Hfront Hback Hsp Hdd)
    as (-> & -> & ->).
  auto.
Qed.

Lemma dd_is_last_and_once_witness :
  dd_cmd "/dev/sdb" "linux.iso" = dd_cmd (target_of full_args) (fmt (arg_iso full_args))
  /\ existsb is_dd
       [ ["sgdisk"; "--zap-all"; "/dev/sdb"]; mkpart_cmd "/dev/sdb" "ext4";
         ["sleep"; "1"]; ["mkfs.ext4"; "/dev/sdb1"] ] = false.
Proof.
  destruct (dd_is_last_and_once linux_root full_args
              [ ["sgdisk"; "--zap-all"; "/dev/sdb"]; mkpart_cmd "/dev/sdb" "ext4";
                ["sleep"; "1"]; ["mkfs.ext4"; "/dev/sdb1"] ]
              (dd_cmd "/dev/sdb" "linux.iso") [] eq_refl eq_refl)
    as (_ & H1 & H2).
  split; [exact H1 | exact H2].
Defined.

(** ** The confirmation, further *)

Lemma confirm_cases w target :
  match stdin_line w with
  | None => confirm w target = (confirm_events target, inl EOFError)
  | Some ans =>
      if (ans =? target) || (ans =? "YES") then
        confirm w target = (confirm_events target, inr PNone)
      else
        confirm w target =
          ((confirm_events target ++ [EPrint [PStr "Confirmation failed. Aborting."]])%list,
           aborted)
  end.
Proof.
  unfold confirm, input. simpl.
  destruct (stdin_line w) as [ans |]; simpl; [| reflexivity].
  destruct (ans =? target), (ans =? "YES"); reflexivity.
Qed.

(** X5.  [confirm] accepts exactly two answers, compared as they are typed:
    it returns if and only if the line read is the target or [YES].  In
    every case it has first printed the warning that shows the target and
    asked; at end of input it raises [EOFError]. *)
Theorem confirm_accepts_exactly w target :
  (returns (confirm w target) = true <->
   stdin_line w = Some target \/ stdin_line w = Some "YES")
  /\ (exists rest, trace (confirm w target) = (confirm_events target ++ rest)%list)
  /\ (stdin_line w = None -> confirm w target = (confirm_events target, inl EOFError)).
Proof.
  pose proof (confirm_cases w target) as H.
  destruct (stdin_line w) as [ans |].
  - destruct (String.eqb_spec ans target) as [Ht | Ht];
      [| destruct (String.eqb_spec ans "YES") as [Hy | Hy]];
      simpl in H; rewrite H; unfold returns; simpl.
    + repeat split; try discriminate; [left; congruence | now exists []].
    + repeat split; try discriminate; [right; congruence | now exists []].
    + repeat split; try discriminate; eauto.
      intros [E | E]; congruence.
  - rewrite H. unfold returns; simpl. repeat split; try discriminate.
    + intros [E | E]; discriminate E.
    + now exists [].
Qed.

Lemma confirm_accepts_exactly_witness :
  returns (confirm (with_stdin linux_root (Some "/dev/sdb")) "/dev/sdb") = true
  /\ returns (confirm (with_stdin linux_root (Some "yes")) "/dev/sdb") = false
  /\ confirm (with_stdin linux_root None) "/dev/sdb"
     = (confirm_events "/dev/sdb", inl EOFError).
Proof.
  split; [| split].
  - apply (confirm_accepts_exactly (with_stdin linux_root (Some "/dev/sdb")) "/dev/sdb").
    left. reflexivity.
  - destruct (returns (confirm (with_stdin linux_root (Some "yes")) "/dev/sdb")) eqn:E;
      [| reflexivity].
    apply (confirm_accepts_exactly (with_stdin linux_root (Some "yes")) "/dev/sdb") in E.
    destruct E as [E | E]; discriminate E.
  - apply (confirm_accepts_exactly (with_stdin linux_root None) "/dev/sdb").
    reflexivity.
Defined.

(** X6.  In a run with a target and without [--yes] that passed the
    privilege check, the confirmation comes before everything else: the
    events of the run start with the warning and the question, and unless
    [confirm] returned (the answer was refused, or the input had ended)
    the run starts no command at all. *)
Theorem confirmation_comes_first w a :
  arg_list a = false ->
  truthy (arg_target a) = true ->
  arg_yes a = false ->
  returns (check_root w) = true ->
  exists rest,
    trace (main w a) = (confirm_events (target_of a) ++ rest)%list
    /\ (returns (confirm w (target_of a)) = false -> spawned (trace (main w a)) = []).
Proof.
  intros Hlist Htarget Hyes Hroot.
  rewrite main_steps, Hlist, Htarget. simpl negb. cbv iota. unfold run_target.
  rewrite (seq_returns (check_root w)) by exact Hroot.
  rewrite check_root_silent. simpl app. unfold trace at 1 3. simpl fst.
  assert (Hc : confirm_step w a = confirm w (target_of a)).
  { unfold confirm_step. now rewrite Hyes. }
  rewrite Hc, trace_bind.
  destruct (confirm_accepts_exactly w (target_of a)) as (_ & [rest Hrest] & _).
  unfold returns.
  destruct (outcome (confirm w (target_of a))) as [e | v].
  - exists rest. split; [exact Hrest |].
    intros _. apply confirm_spawns_nothing.
  - exists (rest ++ trace (partition_step w a;; image_step w a;; emit done_msg))%list.
    split; [now rewrite Hrest, <- app_assoc | discriminate].
Qed.

Lemma confirmation_comes_first_witness :
  exists rest,
    trace (main (with_stdin linux_root None) interactive_args)
    = (confirm_events "/dev/sdb" ++ rest)%list
    /\ spawned (trace (main (with_stdin linux_root None) interactive_args)) = [].
Proof.
  destruct (confirmation_comes_first (with_stdin linux_root None) interactive_args
              eq_refl eq_refl eq_refl eq_refl) as (rest & H1 & H2).
  exists rest. split; [exact H1 | exact (H2 eq_refl)].
Defined.

(** ** Exit status, further *)

Lemma fatal_bind {A B} (m : M A) (k : A -> M B) :
  fatal m -> (forall x, fatal (k x)) -> fatal (bind m k).
Proof.
  unfold fatal. intros Hm Hk e. rewrite outcome_bind.
  destruct (outcome m) as [e' | x]; [intros [= ->]; auto | apply Hk].
Qed.

Ltac fatal_leaves := unfold fatal; fates; intros ? [= <-]; reflexivity.

Lemma check_root_fatal w : fatal (check_root w).
Proof. unfold check_root. destruct (IsUserAnAdmin w) as [[|] |]; fatal_leaves. Qed.

Lemma confirm_step_fatal w a : fatal (confirm_step w a).
Proof. unfold confirm_step, confirm, input. destruct (stdin_line w); fatal_leaves. Qed.

Lemma partition_step_fatal w a : fatal (partition_step w a).
Proof.
  unfold partition_step.
  destruct (truthy (arg_parttable a)); [| fatal_leaves].
  destruct (in_tuple _ _).
  - apply fatal_bind; [fatal_leaves | intros _].
    apply fatal_bind;
      [unfold create_partition_table_unix, check_call; fatal_leaves | intros _].
    destruct (truthy (arg_format a)); [| fatal_leaves].
    intros e He. now destruct (format_partition_raises _ _ _ _ He).
  - unfold write_file, check_call. fatal_leaves.
Qed.

Lemma image_step_fatal w a : fatal (image_step w a).
Proof.
  unfold image_step, write_iso_unix, Path_exists, write_iso_windows, check_call. fatal_leaves.
Qed.

Lemma run_target_fatal w a : fatal (run_target w a).
Proof.
  unfold run_target.
  apply fatal_bind; [apply check_root_fatal | intros _].
  apply fatal_bind; [apply confirm_step_fatal | intros _].
  apply fatal_bind; [apply partition_step_fatal | intros _].
  apply fatal_bind; [apply image_step_fatal | intros _].
  fatal_leaves.
Qed.

(** X7.  The exit status of the script is 0, 1 or 2.  It is 2 exactly
    when [parse_args] reports a usage error or when it returns a namespace
    with neither [--list] nor a target (the argument error of [main]); in
    both cases nothing else has been done.  It is 0 exactly when the help
    was shown or the body of [main] returns; a listing always returns, and
    whatever a run with a target raises gives 1. *)
Theorem exit_status_cases w cmdline :
  (exit_status (outcome (script w cmdline)) = 0%Z
   \/ exit_status (outcome (script w cmdline)) = 1%Z
   \/ exit_status (outcome (script w cmdline)) = 2%Z)
  /\ (exit_status (outcome (script w cmdline)) = 2%Z <->
      cmdline = UsageError
      \/ exists a, cmdline = Namespace a
                   /\ arg_list a = false /\ truthy (arg_target a) = false)
  /\ (exit_status (outcome (script w cmdline)) = 2%Z -> trace (script w cmdline) = [])
  /\ (exit_status (outcome (script w cmdline)) = 0%Z <->
      cmdline = HelpShown \/ returns (script w cmdline) = true)
  /\ (forall a, cmdline = Namespace a -> arg_list a = true ->
      exit_status (outcome (script w cmdline)) = 0%Z).
Proof.
  assert (Hcase :
            forall (P : Prop) (a : Args),
              (cmdline = UsageError
               \/ exists a', cmdline = Namespace a'
                             /\ arg_list a' = false /\ truthy (arg_target a') = false) ->
              cmdline = Namespace a ->
              (arg_list a = true \/ truthy (arg_target a) = true) -> P).
  { intros P a [-> | (a' & -> & Hl & Ht)] [=] Hor; subst.
    destruct Hor; congruence. }
  destruct cmdline as [a | |]; simpl.
  2:{ repeat split; auto; try discriminate; try (intros a [=]).
      intros [[=] | (a & [=] & _)]. }
  2:{ repeat split; auto; try discriminate; try (intros a [=]).
      intros [[=] | [=]]. }
  rewrite main_steps. unfold returns.
  destruct (arg_list a) eqn:Hlist.
  { rewrite list_disks_returns. simpl.
    repeat split; auto; try discriminate.
    intros H. now apply (Hcase _ a H eq_refl); left. }
  destruct (truthy (arg_target a)) eqn:Htarget; simpl negb; cbv iota.
  - destruct (outcome (run_target w a)) as [e | v] eqn:E;
      [rewrite (run_target_fatal w a e E) | simpl];
      repeat split; auto; try discriminate;
      try (intros H; now apply (Hcase _ a H eq_refl); right);
      try (intros [[=] | [=]]);
      try (intros a' [= <-]; congruence).
  - simpl. repeat split; auto; try discriminate;
      try (intros [[=] | [=]]);
      try (intros a' [= <-]; congruence).
    intros _. right. exists a. auto.
Qed.

(** ** Platforms *)

(** X8.  On Windows the raw write is not implemented: a run with a target
    and an image never starts [dd] and never completes; it ends with exit
    status 1, and when the steps before the image block returned (the
    partitioning by [diskpart] included), it ends in the [SystemExit] of
    [write_iso_windows]. *)
Theorem windows_image_never_written w a :
  platform_system w = "Windows" ->
  arg_list a = false ->
  truthy (arg_target a) = true ->
  truthy (arg_iso a) = true ->
  never is_dd (trace (main w a))
  /\ returns (main w a) = false
  /\ exit_status (outcome (main w a)) = 1%Z
  /\ (returns (check_root w) = true ->
      returns (confirm_step w a) = true ->
      returns (partition_step w a) = true ->
      outcome (main w a) =
        inl (SystemExit
               (ExitMsg "Windows raw write not implemented. Use Rufus or Win32 Disk Imager on Windows."))).
Proof.
  intros Hsys Hlist Htarget Hiso.
  assert (Himage : image_step w a =
                   ([], inl (SystemExit
                               (ExitMsg "Windows raw write not implemented. Use Rufus or Win32 Disk Imager on Windows.")))).
  { unfold image_step, write_iso_windows. now rewrite Hiso, Hsys. }
  rewrite main_steps, Hlist, Htarget. simpl negb. cbv iota.
  assert (Hret : returns (run_target w a) = false).
  { unfold returns. destruct (outcome (run_target w a)) as [e | v] eqn:E; [reflexivity |].
    apply run_target_returned in E as (_ & _ & _ & E & _).
    unfold returns in E. now rewrite Himage in E. }
  repeat split.
  - apply run_target_never_dd_but_image. now rewrite Himage.
  - exact Hret.
  - unfold returns in Hret.
    destruct (outcome (run_target w a)) as [e | v] eqn:E; [| discriminate].
    apply (run_target_fatal w a e E).
  - intros Hroot Hconfirm Hpart. unfold run_target.
    rewrite (seq_returns _ _ Hroot). unfold outcome at 1. simpl snd.
    rewrite (seq_returns _ _ Hconfirm). unfold outcome at 1. simpl snd.
    rewrite (seq_returns _ _ Hpart). unfold outcome at 1. simpl snd.
    now rewrite Himage.
Qed.

Lemma windows_image_never_written_witness :
  main (windows (Some true)) windows_full_args =
    ([ EPrint [PStr "Windows partitioning/formatting path"];
       EPrint [PStr "Running diskpart script (requires admin)"];
       EWrite "diskpart_script.txt"
         (diskpart_script "1" (Some "gpt") (Some "ntfs"));
       ESpawn ["diskpart"; "/s"; "diskpart_script.txt"] ],
     inl (SystemExit
            (ExitMsg "Windows raw write not implemented. Use Rufus or Win32 Disk Imager on Windows.")))
  /\ exit_status (outcome (main (windows (Some true)) windows_full_args)) = 1%Z.
Proof.
  destruct (windows_image_never_written (windows (Some true)) windows_full_args
              eq_refl eq_refl eq_refl eq_refl) as (_ & _ & H & _).
  split; [reflexivity | exact H].
Defined.

(** X9.  On a platform other than Linux, macOS and Windows a run with a
    target checks no privilege, starts no command and writes nothing,
    whatever was requested: it is the confirmation followed by the
    completion message. *)
Theorem other_platform_does_nothing w a :
  in_tuple (platform_system w) ["Linux"; "Darwin"] = false ->
  (platform_system w =? "Windows") = false ->
  arg_list a = false ->
  truthy (arg_target a) = true ->
  check_root w = ([], inr PNone)
  /\ main w a = (confirm_step w a ;; emit done_msg)
  /\ spawned (trace (main w a)) = []
  /\ (returns (confirm_step w a) = true -> exit_status (outcome (main w a)) = 0%Z).
Proof.
  intros Hunix Hwin Hlist Htarget.
  assert (Hroot : check_root w = ([], inr PNone)).
  { unfold check_root. now rewrite Hunix, Hwin. }
  assert (Hpart : partition_step w a = ret PNone).
  { unfold partition_step. rewrite Hunix, Hwin. now destruct (truthy (arg_parttable a)). }
  assert (Himage : image_step w a = ret PNone).
  { unfold image_step. rewrite Hunix, Hwin. now destruct (truthy (arg_iso a)). }
  assert (Hmain : main w a = (confirm_step w a ;; emit done_msg)).
  { rewrite main_steps, Hlist, Htarget. simpl negb. cbv iota. unfold run_target.
    rewrite Hroot, Hpart, Himage.
    change (([] : list event, inr PNone : exn + pyval)) with (ret PNone).
    now rewrite !ret_seq. }
  repeat split; [exact Hroot | exact Hmain | |].
  - rewrite Hmain, spawned_seq, confirm_step_spawns_nothing.
    now destruct (returns _).
  - intros Hc. rewrite Hmain, (seq_returns _ _ Hc). reflexivity.
Qed.

Lemma other_platform_does_nothing_witness :
  main freebsd full_args = ([done_msg], inr PNone).
Proof.
  destruct (other_platform_does_nothing freebsd full_args
              eq_refl eq_refl eq_refl eq_refl) as (_ & H & _).
  rewrite H. reflexivity.
Defined.

(** ** Provisioning and formatting, further *)

(** X10.  [create_partition_table_unix] starts at most one command: sgdisk
    when it is installed, parted only when sgdisk is not, and with neither
    it raises [SystemExit] having started nothing.  It returns exactly when
    the command it picked could be started, whatever its exit status: a
    failing sgdisk is not retried with parted. *)
Theorem provisioning_runs_one_tool w device table :
  spawned (trace (create_partition_table_unix w device table))
  = match provisioning_cmd w device table with
    | Some cmd => [cmd]
    | None => []
    end
  /\ (provisioning_cmd w device table = None ->
      create_partition_table_unix w device table =
        ([], inl (SystemExit
                    (ExitMsg "Neither sgdisk nor parted found. Install parted (or gdisk) and retry."))))
  /\ (forall cmd, provisioning_cmd w device table = Some cmd ->
      returns (create_partition_table_unix w device table) = started w cmd)
  /\ (which w "sgdisk" = true ->
      never is_mklabel (trace (create_partition_table_unix w device table))).
Proof.
  unfold create_partition_table_unix, provisioning_cmd, check_call, started, returns, never.
  destruct (which w "sgdisk"); [| destruct (which w "parted")];
    try destruct (table =? "gpt");
    try match goal with
        | |- context [spawn w ?c] =>
            destruct (spawn w c) as [st out | msg] eqn:Hs; simpl;
            [destruct (st =? 0)%Z |]
        end;
    simpl; repeat split; try discriminate; try reflexivity;
    intros ? [= <-]; now rewrite Hs.
Qed.

Lemma provisioning_runs_one_tool_witness :
  spawned (trace (create_partition_table_unix
                    (with_spawn linux_root (failing "sgdisk")) "/dev/sdb" "gpt"))
  = [["sgdisk"; "--zap-all"; "/dev/sdb"]]
  /\ returns (create_partition_table_unix
                (with_spawn linux_root (failing "sgdisk")) "/dev/sdb" "gpt") = true.
Proof.
  destruct (provisioning_runs_one_tool
              (with_spawn linux_root (failing "sgdisk")) "/dev/sdb" "gpt")
    as (H1 & _ & H2 & _).
  split; [exact H1 |].
  exact (H2 ["sgdisk"; "--zap-all"; "/dev/sdb"] eq_refl).
Defined.

(** X11.  [format_partition_unix] starts an mkfs command only after
    [parted mkpart] exited with status 0, on Linux or macOS, for a
    supported kind; the commands of the step are then mkpart, the sleep and
    that mkfs, and the mkfs is given one argument, the first partition:
    [<device>1] on Linux, [<device>s1] on macOS. *)
Theorem mkfs_only_after_mkpart w device fs_type cmd :
  In cmd (spawned (trace (format_partition_unix w device fs_type))) ->
  is_mkfs cmd = true ->
  succeeded w (mkpart_cmd device fs_type) = true
  /\ supported_fs fs_type = true
  /\ (platform_system w =? "Linux") || (platform_system w =? "Darwin") = true
  /\ spawned (trace (format_partition_unix w device fs_type))
     = [mkpart_cmd device fs_type; ["sleep"; "1"]; cmd]
  /\ tl cmd = [first_partition w device].
Proof.
  unfold format_partition_unix, check_call, subprocess_call, succeeded, supported_fs,
    first_partition, mkpart_cmd.
  fates; intros Hin Hmk; simpl in Hin;
    repeat match type of Hin with
           | _ \/ _ => destruct Hin as [<- | Hin]
           | False => destruct Hin
           end;
    try discriminate Hmk;
    try match goal with
        | H : (platform_system ?w =? _) = true,
          H' : negb (platform_system ?w =? "Windows") = false |- _ =>
            apply String.eqb_eq in H; rewrite H in H'; discriminate H'
        end.
  all: repeat split; try reflexivity;
    repeat match goal with
           | H : spawn _ _ = _ |- _ => rewrite H
           | H : (_ =? 0)%Z = true |- _ => rewrite H
           end;
    rewrite ?orb_true_r; reflexivity.
Qed.

Lemma mkfs_only_after_mkpart_witness :
  spawned (trace (format_partition_unix linux_root "/dev/sdb" "fat32"))
  = [mkpart_cmd "/dev/sdb" "fat32"; ["sleep"; "1"]; ["mkfs.vfat"; "/dev/sdb1"]].
Proof.
  destruct (mkfs_only_after_mkpart linux_root "/dev/sdb" "fat32"
              ["mkfs.vfat"; "/dev/sdb1"]) as (_ & _ & _ & H & _).
  - simpl. do 2 right. left. reflexivity.
  - reflexivity.
  - exact H.
Defined.

(** ** The Windows partitioning block *)



(** ** Listing, further *)



(** ** What the operator is asked *)









Lemma exit_status_cases_witness :
  exit_status
    (outcome (script linux_root
                (Namespace
                   {| arg_list := false; arg_target := None; arg_iso := Some "linux.iso";
                      arg_parttable := Some "gpt"; arg_format := None;
                      arg_yes := true |})))
  = 2%Z
  /\ trace (script linux_root
              (Namespace
                 {| arg_list := false; arg_target := None; arg_iso := Some "linux.iso";
                    arg_parttable := Some "gpt"; arg_format := None;
                    arg_yes := true |}))
     = []
  /\ exit_status (outcome (script linux_root UsageError)) = 2%Z.
Proof.
  destruct (exit_status_cases linux_root
              (Namespace
                 {| arg_list := false; arg_target := None; arg_iso := Some "linux.iso";
                    arg_parttable := Some "gpt"; arg_format := None;
                    arg_yes := true |}))
    as (_ & [_ H1] & H2 & _).
  destruct (exit_status_cases linux_root UsageError) as (_ & [_ H3] & _).
  assert (H : exit_status
                (outcome (script linux_root
                   (Namespace
                      {| arg_list := false; arg_target := None;
                         arg_iso := Some "linux.iso"; arg_parttable := Some "gpt";
                         arg_format := None; arg_yes := true |}))) = 2%Z).
  { apply H1. right. eexists. repeat split. }
  split; [exact H |]. split; [exact (H2 H) |].
  apply H3. left. reflexivity.
Defined.

(** ** Steps that give up quietly *)

(** X15.  When [parted mkpart] exits with a failure status,
    [format_partition_unix] prints "Failed to create partition:" with the
    error and returns at once: no sleep, no mkfs, and no complaint about
    the platform or about an unsupported filesystem kind. *)
Theorem mkpart_failure_ends_formatting w device fs_type st out :
  which w "parted" = true ->
  spawn w (mkpart_cmd device fs_type) = Exited st out ->
  st <> 0%Z ->
  format_partition_unix w device fs_type =
    ([ ESpawn (mkpart_cmd device fs_type);
       EPrint [PStr "Failed to create partition:";
               PExc (CalledProcessError st (mkpart_cmd device fs_type))] ],
     inr PNone).
Proof.
  intros Hw Hs Hst. unfold format_partition_unix, check_call, mkpart_cmd in *.
  rewrite Hw. simpl. rewrite Hs.
  destruct (Z.eqb_spec st 0) as [-> | _]; [contradiction | reflexivity].
Qed.

Lemma mkpart_failure_ends_formatting_witness :
  format_partition_unix (with_spawn linux_root (failing "parted")) "/dev/sdb" "btrfs" =
    ([ ESpawn (mkpart_cmd "/dev/sdb" "btrfs");
       EPrint [PStr "Failed to create partition:";
               PExc (CalledProcessError 1 (mkpart_cmd "/dev/sdb" "btrfs"))] ],
     inr PNone).
Proof.
  apply (mkpart_failure_ends_formatting
           (with_spawn linux_root (failing "parted")) "/dev/sdb" "btrfs" 1%Z "");
    [reflexivity | reflexivity | discriminate].
Defined.

(** X16.  [write_iso_unix] starts a command exactly when the image exists,
    and then exactly one, the [dd] on the device; it returns exactly when
    the image exists and [dd] could be started, whatever the exit status of
    [dd]. *)
Theorem write_iso_unix_returns_iff w device iso_path :
  spawned (trace (write_iso_unix w device iso_path))
  = (if path_exists w iso_path then [dd_cmd device iso_path] else [])
  /\ returns (write_iso_unix w device iso_path)
     = path_exists w iso_path && started w (dd_cmd device iso_path).
Proof.
  unfold write_iso_unix, Path_exists, path_exists, check_call, started, returns,
    dd_cmd.
  destruct (path_stat w iso_path); simpl; try (split; reflexivity).
  match goal with
  | |- context [spawn ?w0 ?c] =>
      destruct (spawn w0 c) as [st out | msg]; simpl;
      [destruct (st =? 0)%Z |]
  end; split; reflexivity.
Qed.
